(** * hypothesis/_settings.py: settings objects, profiles, scoped defaults

    A shallow embedding of [src/hypothesis/_settings.py].  Python objects
    live in an explicit store: every [settings] instance is a reference into
    [heap], whose cells are the instances' [__dict__]s, so that aliasing
    (the same snapshot registered as a profile, installed as the default and
    entered as a scope) is visible.  Code that can raise runs in a state and
    exception monad in which the state survives a raise, as in Python. *)

From Stdlib Require Import ZArith String Ascii List Bool Lia.
From stdpp Require Import base option list gmap strings.

Open Scope string_scope.

(** ** Python values *)

(** [class Phase(IntEnum)]. *)
Inductive Phase := explicit | reuse | generate | shrink.

(** [class HealthCheck(Enum)]. *)
Inductive HealthCheck :=
  | exception_in_generation | data_too_large | filter_too_much
  | too_slow | random_module | return_value.

(** [class Verbosity(object)]: [__init__] stores [name] and [level]. *)
Record Verbosity := mkVerbosity { Verbosity_name : string; level : Z }.

(** The values option attributes take.  [not_set] is the sentinel of
    [hypothesis.utils.conventions]; [ExampleDatabase i] is a reference to
    the [i]-th database object created in this process; [threading_local i]
    is a reference to the [i]-th [threading.local()] namespace. *)
#[warnings="-register-all"]
Inductive value :=
  | not_set
  | None_
  | Bool (b : bool)
  | Int (z : Z)
  | Str (s : string)
  | VerbosityV (v : Verbosity)
  | PhaseV (p : Phase)
  | HealthCheckV (h : HealthCheck)
  | Tuple (l : list value)
  | List_ (l : list value)
  | ExampleDatabase (i : nat)
  | threading_local (i : nat).

Definition Phase_value (p : Phase) : Z :=
  match p with explicit => 0 | reuse => 1 | generate => 2 | shrink => 3 end%Z.

Definition HealthCheck_value (h : HealthCheck) : Z :=
  match h with
  | exception_in_generation => 0 | data_too_large => 1 | filter_too_much => 2
  | too_slow => 3 | random_module => 4 | return_value => 5
  end%Z.

(** [tuple(Phase)]: the members in definition order. *)
Definition tuple_Phase : value :=
  Tuple [PhaseV explicit; PhaseV reuse; PhaseV generate; PhaseV shrink].

(** The integer a value is as a number: [bool] and [IntEnum] are [int]s. *)
Definition as_int (v : value) : option Z :=
  match v with
  | Bool b => Some (if b then 1 else 0)%Z
  | Int z => Some z
  | PhaseV p => Some (Phase_value p)
  | _ => None
  end.

(** Python's [a == b] on these values.  [Verbosity.__eq__] compares levels
    and is false against anything that is not a [Verbosity]; numbers compare
    by value across [bool], [int] and [IntEnum]; sequences compare
    element-wise within their own type; everything else is identity. *)
Fixpoint py_eq (a b : value) {struct a} : bool :=
  let fix all2 (xs ys : list value) {struct xs} : bool :=
    match xs, ys with
    | [], [] => true
    | x :: xs', y :: ys' => py_eq x y && all2 xs' ys'
    | _, _ => false
    end in
  match a, b with
  | not_set, not_set => true
  | None_, None_ => true
  | Str s, Str t => String.eqb s t
  | VerbosityV v, VerbosityV u => Z.eqb (level v) (level u)
  | HealthCheckV h, HealthCheckV k =>
      Z.eqb (HealthCheck_value h) (HealthCheck_value k)
  | Tuple xs, Tuple ys => all2 xs ys
  | List_ xs, List_ ys => all2 xs ys
  | ExampleDatabase i, ExampleDatabase j => Nat.eqb i j
  | threading_local i, threading_local j => Nat.eqb i j
  | _, _ =>
      match as_int a, as_int b with
      | Some x, Some y => Z.eqb x y
      | _, _ => false
      end
  end.

(** Whether [hash(v)] succeeds: lists are unhashable, tuples are hashable
    when their elements are. *)
Fixpoint hashable (v : value) : bool :=
  match v with
  | List_ _ => false
  | Tuple l => forallb hashable l
  | _ => true
  end.

(** Python truthiness, what [if v:] and [and] test. *)
Definition truthy (v : value) : bool :=
  match v with
  | None_ => false
  | Bool b => b
  | Int z => negb (Z.eqb z 0%Z)
  | Str s => negb (String.eqb s "")
  | PhaseV p => negb (Z.eqb (Phase_value p) 0%Z)
  | Tuple l | List_ l => match l with [] => false | _ => true end
  | _ => true
  end.

(** [a and b]: [a] when it is falsy, otherwise [b]. *)
Definition py_and (a b : value) : value := if truthy a then b else a.

Definition is_not_set (v : value) : bool :=
  match v with not_set => true | _ => false end.

Definition is_None (v : value) : bool :=
  match v with None_ => true | _ => false end.

(** ** Exceptions

    The exception classes the module raises, with their message.  Where the
    source formats a value with [%r] the rendering is left out of the text. *)
Inductive exn :=
  | AttributeError (msg : string)
  | InvalidArgument (msg : string)
  | AssertionError
  | TypeError (msg : string)
  | IndexError (msg : string)
  | KeyError
  | RuntimeError (msg : string)
  | HypothesisDeprecationWarning (message : string).

Inductive result (A : Type) :=
  | Return (a : A)
  | Raise (e : exn).
Arguments Return {A} a.
Arguments Raise {A} e.

(** ** The registry *)

(** [os.environ] as far as the module reads it after import, together with
    what [hypothesis_home_dir()] (module [hypothesis.configuration]) returns. *)
Record Environ := mkEnviron {
  HYPOTHESIS_DATABASE_FILE : option string;
  hypothesis_home_dir : string
}.

(** A declared default: a plain value, or a zero-argument function
    ([inspect.isfunction(d)]), which here can only read the environment. *)
Inductive default_t :=
  | Const (v : value)
  | Function (f : Environ -> value).

(** [Setting = namedtuple('Setting', (name, description, default, options,
    validator))]; [description] only feeds docstrings and is not kept. *)
Record Setting := mkSetting {
  name : string;
  default : default_t;
  options : option (list value);
  validator : option (value -> result value)
}.

(** [x in Phase] for [isinstance(a, Phase)]. *)
Definition is_Phase (v : value) : bool :=
  match v with PhaseV _ => true | _ => false end.

(** [_validate_phases]: [tuple(phases)] iterates a tuple or a list; a string
    iterates its characters, none of which is a [Phase]; other values of
    this model are not iterable. *)
Definition _validate_phases (phases : value) : result value :=
  match phases with
  | None_ => Return tuple_Phase
  | Tuple l | List_ l =>
      if forallb is_Phase l then Return (Tuple l)
      else Raise (InvalidArgument "is not a valid phase")
  | Str s =>
      if String.eqb s "" then Return (Tuple [])
      else Raise (InvalidArgument "is not a valid phase")
  | _ => Raise (TypeError "object is not iterable")
  end.

Definition Verbosity_quiet : Verbosity := mkVerbosity "quiet" 0%Z.
Definition Verbosity_normal : Verbosity := mkVerbosity "normal" 1%Z.
Definition Verbosity_verbose : Verbosity := mkVerbosity "verbose" 2%Z.
Definition Verbosity_debug : Verbosity := mkVerbosity "debug" 3%Z.

(** [Verbosity.all]. *)
Definition Verbosity_all : list value :=
  [VerbosityV Verbosity_quiet; VerbosityV Verbosity_normal;
   VerbosityV Verbosity_verbose; VerbosityV Verbosity_debug].

(** [Verbosity.by_name]: [getattr(cls, key, None)] is a [Verbosity] for the
    four level names only. *)
Definition by_name (key : string) : result Verbosity :=
  if String.eqb key "quiet" then Return Verbosity_quiet
  else if String.eqb key "normal" then Return Verbosity_normal
  else if String.eqb key "verbose" then Return Verbosity_verbose
  else if String.eqb key "debug" then Return Verbosity_debug
  else Raise (InvalidArgument "No such verbosity level").

(** [Verbosity.__eq__], [__ne__] and [__hash__]. *)
Definition Verbosity___eq__ (self : Verbosity) (other : value) : bool :=
  match other with
  | VerbosityV o => Z.eqb (level self) (level o)
  | _ => false
  end.

Definition Verbosity___ne__ (self : Verbosity) (other : value) : bool :=
  negb (Verbosity___eq__ self other).

Definition Verbosity___hash__ (self : Verbosity) : Z := level self.

(** [Verbosity.__lt__], [__le__], [__gt__], [__ge__]: they read
    [other.level], which only a [Verbosity] has among these values. *)
Definition Verbosity___lt__ (self : Verbosity) (other : value) : result bool :=
  match other with
  | VerbosityV o => Return (Z.ltb (level self) (level o))
  | _ => Raise (AttributeError "level")
  end.

Definition Verbosity___le__ (self : Verbosity) (other : value) : result bool :=
  match other with
  | VerbosityV o => Return (Z.leb (level self) (level o))
  | _ => Raise (AttributeError "level")
  end.

Definition Verbosity___gt__ (self : Verbosity) (other : value) : result bool :=
  match other with
  | VerbosityV o => Return (Z.ltb (level o) (level self))
  | _ => Raise (AttributeError "level")
  end.

Definition Verbosity___ge__ (self : Verbosity) (other : value) : result bool :=
  match other with
  | VerbosityV o => Return (Z.leb (level o) (level self))
  | _ => Raise (AttributeError "level")
  end.

(** [_WHITELISTED_REAL_PROPERTIES]. *)
Definition _WHITELISTED_REAL_PROPERTIES : list string :=
  ["_database"; "_construction_complete"; "storage"].

(** [name in seq] for a list of strings. *)
Definition str_in (x : string) (l : list string) : bool :=
  existsb (String.eqb x) l.

(** ** The process state *)

(** What [default_variable.with_value(v)] returns: a context manager that
    remembers the value to install and, once entered, the value it
    replaced ([None] before [__enter__] has run). *)
Record context_manager := mkCM {
  cm_value : nat;
  cm_old_value : option (option nat)
}.

(** Observable actions that leave no other mark on the state. *)
Inductive event :=
  | Called (setting : string)        (* a default function was called *)
  | Warned (warning : exn).          (* warnings.warn(warning) *)

Record World := mkWorld {
  (** the [__dict__] of every [settings] instance, by reference *)
  heap : list (gmap string value);
  (** every [threading.local()] namespace as the running thread sees it:
      its [defaults_stack] attribute, a list of context managers by
      reference, or [None] while the attribute is not set *)
  locals : list (option (list nat));
  (** the context managers created by [with_value], by reference *)
  context_managers : list context_manager;
  (** [default_variable.value] on the running thread *)
  default_variable : option nat;
  (** the class attribute [settings._current_profile], absent until the
      first [load_profile] *)
  _current_profile : option string;
  (** the class attribute [settings._profiles] *)
  _profiles : gmap string nat;
  (** the module global [_db_cache], in insertion order *)
  _db_cache : list (value * value);
  (** the file every [ExampleDatabase] object was created with, by
      reference *)
  databases : list value;
  environ : Environ;
  trace : list event
}.

Definition set_heap (h : list (gmap string value)) (w : World) : World :=
  mkWorld h (locals w) (context_managers w) (default_variable w)
    (_current_profile w) (_profiles w) (_db_cache w) (databases w)
    (environ w) (trace w).

Definition set_locals (l : list (option (list nat))) (w : World) : World :=
  mkWorld (heap w) l (context_managers w) (default_variable w)
    (_current_profile w) (_profiles w) (_db_cache w) (databases w)
    (environ w) (trace w).

Definition set_context_managers (c : list context_manager) (w : World)
  : World :=
  mkWorld (heap w) (locals w) c (default_variable w)
    (_current_profile w) (_profiles w) (_db_cache w) (databases w)
    (environ w) (trace w).

Definition set_default_variable (v : option nat) (w : World) : World :=
  mkWorld (heap w) (locals w) (context_managers w) v
    (_current_profile w) (_profiles w) (_db_cache w) (databases w)
    (environ w) (trace w).

Definition set__current_profile (p : option string) (w : World) : World :=
  mkWorld (heap w) (locals w) (context_managers w) (default_variable w)
    p (_profiles w) (_db_cache w) (databases w) (environ w) (trace w).

Definition set__profiles (p : gmap string nat) (w : World) : World :=
  mkWorld (heap w) (locals w) (context_managers w) (default_variable w)
    (_current_profile w) p (_db_cache w) (databases w) (environ w) (trace w).

Definition set__db_cache (c : list (value * value)) (w : World) : World :=
  mkWorld (heap w) (locals w) (context_managers w) (default_variable w)
    (_current_profile w) (_profiles w) c (databases w) (environ w) (trace w).

Definition set_databases (d : list value) (w : World) : World :=
  mkWorld (heap w) (locals w) (context_managers w) (default_variable w)
    (_current_profile w) (_profiles w) (_db_cache w) d (environ w) (trace w).

Definition set_environ (e : Environ) (w : World) : World :=
  mkWorld (heap w) (locals w) (context_managers w) (default_variable w)
    (_current_profile w) (_profiles w) (_db_cache w) (databases w) e
    (trace w).

Definition set_trace (t : list event) (w : World) : World :=
  mkWorld (heap w) (locals w) (context_managers w) (default_variable w)
    (_current_profile w) (_profiles w) (_db_cache w) (databases w)
    (environ w) t.

(** ** The monad: state that survives exceptions *)

Definition M (A : Type) : Type := World -> result A * World.

Definition ret {A} (a : A) : M A := fun w => (Return a, w).

Definition raise {A} (e : exn) : M A := fun w => (Raise e, w).

Definition bind {A B} (c : M A) (k : A -> M B) : M B :=
  fun w =>
    match c w with
    | (Return a, w') => k a w'
    | (Raise e, w') => (Raise e, w')
    end.

Notation "'let*' x ':=' c 'in' k" := (bind c (fun x => k))
  (at level 10, x name, c at level 200, k at level 200, only parsing).
Notation "c ';;' k" := (bind c (fun _ => k))
  (at level 100, k at level 200, only parsing).

(** [try: c except AttributeError: h]. *)
Definition except_AttributeError {A} (c h : M A) : M A :=
  fun w =>
    match c w with
    | (Raise (AttributeError _), w') => h w'
    | r => r
    end.

(** [assert b]. *)
Definition assert (b : bool) : M unit :=
  if b then ret tt else raise AssertionError.

Definition emit (e : event) : M unit :=
  fun w => (Return tt, set_trace (trace w ++ [e]) w).

(** ** Dictionaries in insertion order ([**kwargs], [all_settings]) *)

Definition dict_get (k : string) (d : list (string * value)) (dflt : value)
  : value :=
  match find (fun kv => String.eqb k (fst kv)) d with
  | Some kv => snd kv
  | None => dflt
  end.

(** [d[k] = v]: an existing key keeps its place. *)
Fixpoint dict_set (k : string) (v : value) (d : list (string * value))
  : list (string * value) :=
  match d with
  | [] => [(k, v)]
  | kv :: d' =>
      if String.eqb k (fst kv) then (k, v) :: d'
      else kv :: dict_set k v d'
  end.

Definition dict_remove (k : string) (d : list (string * value))
  : list (string * value) :=
  List.filter (fun kv => negb (String.eqb k (fst kv))) d.

(** [_db_cache] is keyed by arbitrary hashable values. *)
Definition cache_find (k : value) (c : list (value * value)) : option value :=
  match find (fun kv => py_eq (fst kv) k) c with
  | Some kv => Some (snd kv)
  | None => None
  end.

Fixpoint cache_set (k v : value) (c : list (value * value))
  : list (value * value) :=
  match c with
  | [] => [(k, v)]
  | kv :: c' =>
      if py_eq (fst kv) k then (fst kv, v) :: c'
      else kv :: cache_set k v c'
  end.

(** [os.path.join(a, b)] on POSIX for a relative [b]. *)
Definition ends_with_slash (a : string) : bool :=
  match String.get (String.length a - 1)%nat a with
  | Some c => Ascii.eqb c "/"%char
  | None => false
  end.

Definition os_path_join (a b : string) : string :=
  if String.eqb a "" then b
  else if ends_with_slash a then a ++ b
  else a ++ "/" ++ b.

Section Imported.

(** What the import of the module read from the process environment:
    [os.getenv('HYPOTHESIS_STRICT_MODE')], and the level chosen by
    [HYPOTHESIS_VERBOSITY_LEVEL] through [Verbosity.by_name] (or
    [Verbosity.normal]). *)
Variable HYPOTHESIS_STRICT_MODE : option string.
Variable DEFAULT_VERBOSITY : Verbosity.

(** The [database_file] default:
    [os.getenv('HYPOTHESIS_DATABASE_FILE') or
     os.path.join(hypothesis_home_dir(), 'examples')]. *)
Definition database_file_default (e : Environ) : value :=
  match HYPOTHESIS_DATABASE_FILE e with
  | Some s =>
      if String.eqb s ""
      then Str (os_path_join (hypothesis_home_dir e) "examples")
      else Str s
  | None => Str (os_path_join (hypothesis_home_dir e) "examples")
  end.

(** [all_settings] once the module is imported: the fifteen
    [define_setting] calls in order, after which
    [lock_further_definitions] forbids any other. *)
Definition all_settings : list Setting :=
  [ mkSetting "min_satisfying_examples" (Const (Int 5)) None None;
    mkSetting "max_examples" (Const (Int 200)) None None;
    mkSetting "max_iterations" (Const (Int 1000)) None None;
    mkSetting "max_mutations" (Const (Int 10)) None None;
    mkSetting "buffer_size" (Const (Int (8 * 1024))) None None;
    mkSetting "max_shrinks" (Const (Int 500)) None None;
    mkSetting "timeout" (Const (Int 60)) None None;
    mkSetting "derandomize" (Const (Bool false)) None None;
    mkSetting "strict"
      (Const (Bool (match HYPOTHESIS_STRICT_MODE with
                    | Some s => String.eqb s "true"
                    | None => false
                    end))) None None;
    mkSetting "database_file" (Function database_file_default) None None;
    mkSetting "verbosity" (Const (VerbosityV DEFAULT_VERBOSITY))
      (Some Verbosity_all) None;
    mkSetting "phases" (Const tuple_Phase) None (Some _validate_phases);
    mkSetting "stateful_step_count" (Const (Int 50)) None None;
    mkSetting "perform_health_check" (Const (Bool true)) None None;
    mkSetting "suppress_health_check" (Const (List_ [])) None None ].

(** [all_settings[name]] and [name in all_settings]. *)
Definition all_settings_get (n : string) : option Setting :=
  find (fun s => String.eqb n (name s)) all_settings.

Definition in_all_settings (n : string) : bool :=
  match all_settings_get n with Some _ => true | None => false end.

(** ** Attribute access on a [settings] instance *)

Definition __dict__ (obj : nat) (w : World) : gmap string value :=
  match heap w !! obj with Some d => d | None => ∅ end.

(** [settingsProperty.__get__] on an instance. *)
Definition settingsProperty___get__ (n : string) (obj : nat) : M value :=
  fun w =>
    match __dict__ obj w !! n with
    | Some v => (Return v, w)
    | None => (Raise (AttributeError n), w)
    end.

(** [settings.__getattr__], reached when normal lookup fails. *)
Definition __getattr__ (n : string) : M value :=
  match all_settings_get n with
  | Some s =>
      match default s with
      | Const d => ret d
      | Function f =>
          emit (Called n) ;;
          fun w => (Return (f (environ w)), w)
      end
  | None => raise (AttributeError ("settings has no attribute " ++ n))
  end.

(** [getattr(obj, n)] for a data attribute: a registered option goes
    through its [settingsProperty], a real property through the instance
    [__dict__]; both read the [__dict__] entry and fall back to
    [__getattr__] on [AttributeError]. *)
Definition getattr_ (obj : nat) (n : string) : M value :=
  except_AttributeError (settingsProperty___get__ n obj) (__getattr__ n).

(** [object.__setattr__], and [settingsProperty.__set__] for an option. *)
Definition object___setattr__ (obj : nat) (n : string) (v : value) : M unit :=
  fun w =>
    (Return tt, set_heap (<[obj := <[n := v]> (__dict__ obj w)]> (heap w)) w).

Definition immutable_msg : string :=
  "settings objects are immutable and may not be assigned to after construction.".

(** [value in setting.options]. *)
Definition in_options (v : value) (opts : list value) : bool :=
  existsb (fun o => py_eq o v) opts.

(** [settings.__setattr__]. *)
Definition __setattr__ (self : nat) (n : string) (v : value) : M unit :=
  if str_in n _WHITELISTED_REAL_PROPERTIES then object___setattr__ self n v
  else if String.eqb n "database" then
    let* c := getattr_ self "_construction_complete" in
    assert (truthy c) ;;
    raise (AttributeError immutable_msg)
  else
    match all_settings_get n with
    | Some setting =>
        let* c := getattr_ self "_construction_complete" in
        if truthy c then raise (AttributeError immutable_msg)
        else
          match options setting with
          | Some opts =>
              if negb (in_options v opts)
              then raise (InvalidArgument ("Invalid " ++ n))
              else object___setattr__ self n v
          | None => object___setattr__ self n v
          end
    | None => raise (AttributeError ("No such setting " ++ n))
    end.

(** ** The [database] property *)

(** [k in _db_cache]; hashing an unhashable key raises. *)
Definition _db_cache_contains (k : value) : M bool :=
  fun w =>
    if hashable k
    then (Return (match cache_find k (_db_cache w) with
                  | Some _ => true | None => false end), w)
    else (Raise (TypeError "unhashable type"), w).

(** [_db_cache[k]]. *)
Definition _db_cache_getitem (k : value) : M value :=
  fun w =>
    if hashable k
    then match cache_find k (_db_cache w) with
         | Some v => (Return v, w)
         | None => (Raise KeyError, w)
         end
    else (Raise (TypeError "unhashable type"), w).

(** [_db_cache[k] = v]. *)
Definition _db_cache_setitem (k v : value) : M unit :=
  fun w =>
    if hashable k
    then (Return tt, set__db_cache (cache_set k v (_db_cache w)) w)
    else (Raise (TypeError "unhashable type"), w).

(** Modelled from the spec: [ExampleDatabase] (module
    [hypothesis.database]) is missing from the sources; constructing one
    makes a new database object for the path. *)
Definition new_ExampleDatabase (path : value) : M value :=
  fun w =>
    (Return (ExampleDatabase (length (databases w))),
     set_databases (databases w ++ [path]) w).

(** [settings.database]. *)
Definition database (self : nat) : M value :=
  let* d := getattr_ self "_database" in
  let* lazy :=
    (if is_not_set d
     then let* f := getattr_ self "database_file" in ret (negb (is_None f))
     else ret false) in
  if lazy : bool then
    let* f := getattr_ self "database_file" in
    let* present := _db_cache_contains f in
    (if present : bool then ret tt
     else
       let* f1 := getattr_ self "database_file" in
       let* db := new_ExampleDatabase f1 in
       let* f2 := getattr_ self "database_file" in
       _db_cache_setitem f2 db) ;;
    let* f3 := getattr_ self "database_file" in
    _db_cache_getitem f3
  else
    let* d' := getattr_ self "_database" in
    (if is_not_set d' then __setattr__ self "_database" None_ else ret tt) ;;
    getattr_ self "_database".

(** ** Profiles and the current default *)

(** [settings.register_profile(name, settings)]: the parameter shadows the
    class, and [settings._profiles] on the instance is the class
    attribute. *)
Definition register_profile (n : string) (s : nat) : M unit :=
  fun w => (Return tt, set__profiles (<[n := s]> (_profiles w)) w).

(** [settings.get_profile(name)]. *)
Definition get_profile (n : string) : M nat :=
  fun w =>
    match _profiles w !! n with
    | Some s => (Return s, w)
    | None =>
        (Raise (InvalidArgument
                  ("Profile '" ++ n ++ "' has not been registered")), w)
    end.

(** Modelled from the spec: [DynamicVariable] (module
    [hypothesis.utils.dynamicvariables]) is missing from the sources; it is
    the default cell, and reading its [value] gives what was last put in
    it, [None] at first. *)
Definition DynamicVariable_value : M (option nat) :=
  fun w => (Return (default_variable w), w).

(** Modelled from the spec: assigning the [value] of the default cell. *)
Definition DynamicVariable_set_value (v : option nat) : M unit :=
  fun w => (Return tt, set_default_variable v w).

(** [settingsMeta._assign_default_internal]. *)
Definition _assign_default_internal (v : nat) : M unit :=
  DynamicVariable_set_value (Some v).

(** [settings.load_profile(name)]. *)
Definition load_profile (n : string) : M unit :=
  (fun w => (Return tt, set__current_profile (Some n) w)) ;;
  let* p := get_profile n in
  _assign_default_internal p.

(** The getter of [settings.default] ([settingsMeta.default]). *)
Definition settings_default : M (option nat) :=
  let* v := DynamicVariable_value in
  match v with
  | Some _ => ret v
  | None =>
      (fun w =>
         match _current_profile w with
         | Some p =>
             (load_profile p ;;
              let* v' := DynamicVariable_value in
              assert (bool_decide (v' ≠ None))) w
         | None => (Return tt, w)
         end) ;;
      DynamicVariable_value
  end.

(** ** Construction *)

(** [object.__new__]: a fresh instance with an empty [__dict__]. *)
Definition new_settings : M nat :=
  fun w => (Return (length (heap w)), set_heap (heap w ++ [∅]) w).

(** [threading.local()]: a fresh namespace without attributes. *)
Definition new_threading_local : M value :=
  fun w =>
    (Return (threading_local (length (locals w))),
     set_locals (locals w ++ [None]) w).

(** The loop [for setting in all_settings.values()] of [__init__]: an
    option without override takes the value read on [defaults], an
    overridden one goes through its validator. *)
Fixpoint inherit (defaults : nat) (ss : list Setting)
    (kwargs : list (string * value)) : M (list (string * value)) :=
  match ss with
  | [] => ret kwargs
  | setting :: ss' =>
      let* kwargs' :=
        (if is_not_set (dict_get (name setting) kwargs not_set)
         then
           let* v := getattr_ defaults (name setting) in
           ret (dict_set (name setting) v kwargs)
         else
           match validator setting with
           | Some f =>
               match f (dict_get (name setting) kwargs not_set) with
               | Return v => ret (dict_set (name setting) v kwargs)
               | Raise e => raise e
               end
           | None => ret kwargs
           end) in
      inherit defaults ss' kwargs'
  end.

(** The loop [for name, value in kwargs.items()] of [__init__]. *)
Fixpoint store (self : nat) (items : list (string * value)) : M unit :=
  match items with
  | [] => ret tt
  | (n, v) :: rest =>
      if negb (in_all_settings n)
      then raise (InvalidArgument ("Invalid argument " ++ n))
      else (__setattr__ self n v ;; store self rest)
  end.

(** [settings.__init__(self, parent=None, **kwargs)]. *)
Definition __init__ (self : nat) (parent : option nat)
    (kwargs : list (string * value)) : M unit :=
  __setattr__ self "_construction_complete" (Bool false) ;;
  __setattr__ self "_database" (dict_get "database" kwargs not_set) ;;
  let kwargs := dict_remove "database" kwargs in
  let database_file := dict_get "database_file" kwargs not_set in
  let* defaults :=
    (match parent with
     | Some p => ret (Some p)
     | None => settings_default
     end) in
  let* kwargs :=
    (match defaults with
     | Some d =>
         let* kwargs := inherit d all_settings kwargs in
         let* db := getattr_ self "_database" in
         (if is_not_set db && is_not_set database_file
          then let* v := database d in __setattr__ self "_database" v
          else ret tt) ;;
         ret kwargs
     | None => ret kwargs
     end) in
  store self kwargs ;;
  let* l := new_threading_local in
  __setattr__ self "storage" l ;;
  __setattr__ self "_construction_complete" (Bool true).

(** The call [settings(parent, **kwargs)]. *)
Definition settings (parent : option nat) (kwargs : list (string * value))
  : M nat :=
  let* self := new_settings in
  __init__ self parent kwargs ;;
  ret self.

(** ** Scopes *)

(** [self.storage.defaults_stack]: the list, named by the namespace that
    holds it. *)
Definition storage_defaults_stack (self : nat) : M nat :=
  let* st := getattr_ self "storage" in
  match st with
  | threading_local i =>
      fun w =>
        match locals w !! i with
        | Some (Some _) => (Return i, w)
        | _ => (Raise (AttributeError "defaults_stack"), w)
        end
  | _ => raise (AttributeError "defaults_stack")
  end.

(** [settings.defaults_stack]. *)
Definition defaults_stack (self : nat) : M nat :=
  except_AttributeError (storage_defaults_stack self)
    (let* st := getattr_ self "storage" in
     match st with
     | threading_local i =>
         (fun w => (Return tt, set_locals (<[i := Some []]> (locals w)) w)) ;;
         storage_defaults_stack self
     | _ => raise (AttributeError "defaults_stack")
     end).

(** [stack.append(cm)] and [stack.pop()]. *)
Definition list_append (i : nat) (cm : nat) : M unit :=
  fun w =>
    match locals w !! i with
    | Some (Some l) =>
        (Return tt, set_locals (<[i := Some (l ++ [cm])%list]> (locals w)) w)
    | _ => (Raise (AttributeError "append"), w)
    end.

Definition list_pop (i : nat) : M nat :=
  fun w =>
    match locals w !! i with
    | Some (Some l) =>
        match last l with
        | Some cm =>
            (Return cm,
             set_locals (<[i := Some (removelast l)]> (locals w)) w)
        | None => (Raise (IndexError "pop from empty list"), w)
        end
    | _ => (Raise (AttributeError "pop"), w)
    end.

(** Modelled from the spec: [DynamicVariable.with_value] (module
    [hypothesis.utils.dynamicvariables]) makes the restore token of a
    scope.  Entering it captures the default cell's current value and sets
    the cell to the new value; leaving it reinstates the captured value
    unconditionally and does not swallow the failure passing through. *)
Definition with_value (v : nat) : M nat :=
  fun w =>
    (Return (length (context_managers w)),
     set_context_managers (context_managers w ++ [mkCM v None]) w).

(** Modelled from the spec: entering the restore token captures the
    default cell's current value, then sets the cell. *)
Definition cm___enter__ (c : nat) : M unit :=
  fun w =>
    match context_managers w !! c with
    | Some cm =>
        (Return tt,
         set_default_variable (Some (cm_value cm))
           (set_context_managers
              (<[c := mkCM (cm_value cm) (Some (default_variable w))]>
                 (context_managers w)) w))
    | None => (Raise (RuntimeError "no context manager"), w)
    end.

(** Modelled from the spec: leaving the restore token reinstates the
    captured value whatever [exc] is, and answers that the failure is not
    swallowed. *)
Definition cm___exit__ (c : nat) (exc : option exn) : M bool :=
  fun w =>
    match context_managers w !! c with
    | Some (mkCM _ (Some old)) => (Return false, set_default_variable old w)
    | _ => (Raise (RuntimeError "context manager not entered"), w)
    end.

(** [settings.__enter__]. *)
Definition __enter__ (self : nat) : M nat :=
  let* default_context_manager := with_value self in
  let* stack := defaults_stack self in
  list_append stack default_context_manager ;;
  cm___enter__ default_context_manager ;;
  ret self.

(** [settings.__exit__]; [exc] is the failure leaving the scope, if any. *)
Definition __exit__ (self : nat) (exc : option exn) : M bool :=
  let* stack := defaults_stack self in
  let* default_context_manager := list_pop stack in
  cm___exit__ default_context_manager exc.

(** The statement [with s: body]. *)
Definition with_ (s : nat) (body : M unit) : M unit :=
  __enter__ s ;;
  fun w =>
    match body w with
    | (Return _, w1) => (__exit__ s None ;; ret tt) w1
    | (Raise e, w1) =>
        (let* swallow := __exit__ s (Some e) in
         if swallow : bool then ret tt else raise e) w1
    end.

(** [with s1: with s2: ... body]. *)
Definition nested (ss : list nat) (body : M unit) : M unit :=
  fold_right with_ body ss.

(** ** Deprecation *)

(** [verbosity > Verbosity.quiet] through [Verbosity.__gt__]; a value
    without [level] fails on the attribute. *)
Definition gt_quiet (verbosity : value) : M bool :=
  match verbosity with
  | VerbosityV v => ret (Z.ltb (level Verbosity_quiet) (level v))
  | _ => raise (AttributeError "level")
  end.

(** [warnings.warn(warning, stacklevel=3)]. *)
Definition warnings_warn (warning : exn) : M unit := emit (Warned warning).

(** [note_deprecation(message, s=None)]. *)
Definition note_deprecation (message : string) (s : option nat) : M unit :=
  let* s :=
    (match s with
     | None => settings_default
     | Some _ => ret s
     end) in
  match s with
  | None => raise AssertionError
  | Some s =>
      let* d := settings_default in
      let* a :=
        (match d with
         | Some d => getattr_ d "strict"
         | None => raise (AttributeError "strict")
         end) in
      let* strict := (if truthy a then getattr_ s "strict" else ret a) in
      let* verbosity := getattr_ s "verbosity" in
      let warning := HypothesisDeprecationWarning message in
      if truthy strict then raise warning
      else
        let* louder := gt_quiet verbosity in
        if louder : bool then warnings_warn warning else ret tt
  end.

(** ** Import *)

(** The state before the last three statements of the module body run. *)
Definition initial_world (e : Environ) : World :=
  mkWorld [] [] [] None None ∅ [] [] e [].

(** [settings.register_profile('default', settings())],
    [settings.load_profile('default')],
    [assert settings.default is not None]. *)
Definition import_module : M unit :=
  let* s := settings None [] in
  register_profile "default" s ;;
  load_profile "default" ;;
  let* d := settings_default in
  assert (bool_decide (d ≠ None)).

(** ** Declaring settings *)

(** What [define_setting] can raise: [InvalidState] (module
    [hypothesis.errors]), or the failure of [assert default in options]. *)
Inductive define_exn :=
  | InvalidState (msg : string)
  | default_not_in_options.

(** The state [define_setting] works on: the module global [all_settings],
    in insertion order, and the class attribute
    [settings.__definitions_are_locked]. *)
Record Registry := mkRegistry {
  defined : list Setting;
  __definitions_are_locked : bool
}.


(** [all_settings[name] = setting]: an existing name keeps its place. *)
Fixpoint defined_set (s : Setting) (l : list Setting) : list Setting :=
  match l with
  | [] => [s]
  | x :: l' =>
      if String.eqb (name s) (name x) then s :: l'
      else x :: defined_set s l'
  end.

(** [default in options]: a default function is no member of a tuple of
    values. *)
Definition default_in_options (d : default_t) (opts : list value) : bool :=
  match d with
  | Const v => in_options v opts
  | Function _ => false
  end.

(** [settings.define_setting(name, description, default, options,
    validator)]; the answer is the exception raised, if any.  The
    [settingsProperty] it installs on the class is not kept apart: an
    attribute is a setting's property exactly when its name is defined. *)
Definition define_setting (s : Setting) (r : Registry)
  : option define_exn * Registry :=
  if __definitions_are_locked r
  then (Some (InvalidState
                "settings have been locked and may no longer be defined."), r)
  else
    let r' := mkRegistry (defined_set s (defined r))
                (__definitions_are_locked r) in
    match options s with
    | Some opts =>
        if default_in_options (default s) opts then (None, r')
        else (Some default_not_in_options, r)
    | None => (None, r')
    end.

(** [settings.lock_further_definitions()]. *)
Definition lock_further_definitions (r : Registry) : Registry :=
  mkRegistry (defined r) true.

(** A run of [define_setting] calls, stopping at the first that raises. *)
Fixpoint define_settings (ss : list Setting) (r : Registry)
  : option define_exn * Registry :=
  match ss with
  | [] => (None, r)
  | s :: ss' =>
      match define_setting s r with
      | (None, r') => define_settings ss' r'
      | (Some e, r') => (Some e, r')
      end
  end.

(** ** Predicates used by the statements *)

(** The snapshot's [__init__] has run to its last statement. *)
Definition construction_complete (self : nat) (w : World) : Prop :=
  __dict__ self w !! "_construction_complete" = Some (Bool true).

(** The value a read of option [n] on [obj] yields. *)
Definition resolves (obj : nat) (n : string) (w : World) (v : value) : Prop :=
  fst (getattr_ obj n w) = Return v.

(** The snapshot can be entered: its [storage] is a live namespace. *)
Definition scope_ready (s : nat) (w : World) : Prop :=
  exists i, __dict__ s w !! "storage" = Some (threading_local i)
            /\ i < length (locals w).

(** The scope stack held by namespace [i], empty while it is not made. *)
Definition stack (i : nat) (w : World) : list nat :=
  match locals w !! i with
  | Some (Some l) => l
  | _ => []
  end.

(** A scope body that opens or closes no scope of its own and leaves the
    snapshots' [storage] alone; it may do anything else, such as load a
    profile, and may raise. *)
Definition scope_neutral (body : M unit) : Prop :=
  forall w,
    locals (snd (body w)) = locals w
    /\ context_managers (snd (body w)) = context_managers w
    /\ forall s, __dict__ s (snd (body w)) !! "storage"
                 = __dict__ s w !! "storage".

(** What a balanced run of scopes leaves in place. *)
Definition scopes_preserved (w w' : World) : Prop :=
  length (locals w') = length (locals w)
  /\ (forall i, stack i w' = stack i w)
  /\ (forall s, __dict__ s w' !! "storage" = __dict__ s w !! "storage")
  /\ (forall c, c < length (context_managers w) ->
        context_managers w' !! c = context_managers w !! c)
  /\ length (context_managers w) <= length (context_managers w').

(** What a read of attribute [n] yields on an instance whose [__dict__]
    is [D], under environment [e]. *)
Definition lookup_attr (D : gmap string value) (e : Environ) (n : string)
  : result value :=
  match D !! n with
  | Some v => Return v
  | None =>
      match all_settings_get n with
      | Some s =>
          match default s with
          | Const d => Return d
          | Function f => Return (f e)
          end
      | None => Raise (AttributeError ("settings has no attribute " ++ n))
      end
  end.

(** The result of reading [database] on [self] and the state it leaves,
    apart from the trace of default-function calls. *)
Definition database_outcome (self : nat) (w : World) : result value * World :=
  let D := __dict__ self w in
  match lookup_attr D (environ w) "_database" with
  | Raise ex => (Raise ex, w)
  | Return d =>
      if is_not_set d then
        match lookup_attr D (environ w) "database_file" with
        | Raise ex => (Raise ex, w)
        | Return f =>
            if is_None f then
              (Return None_,
               set_heap (<[self := <["_database" := None_]> D]> (heap w)) w)
            else if hashable f then
              match cache_find f (_db_cache w) with
              | Some v => (Return v, w)
              | None =>
                  let c' := cache_set f (ExampleDatabase (length (databases w)))
                              (_db_cache w) in
                  let w' := set__db_cache c'
                              (set_databases (databases w ++ [f]) w) in
                  match cache_find f c' with
                  | Some v => (Return v, w')
                  | None => (Raise KeyError, w')
                  end
              end
            else (Raise (TypeError "unhashable type"), w)
        end
      else (Return d, w)
  end.

(** What the inheritance loop of [__init__] makes of [kwargs] when the
    inheritance source has [__dict__] [D], apart from the trace. *)
Fixpoint inherit_outcome (D : gmap string value) (e : Environ)
    (ss : list Setting) (kwargs : list (string * value))
  : result (list (string * value)) :=
  match ss with
  | [] => Return kwargs
  | setting :: ss' =>
      if is_not_set (dict_get (name setting) kwargs not_set) then
        match lookup_attr D e (name setting) with
        | Return v => inherit_outcome D e ss' (dict_set (name setting) v kwargs)
        | Raise ex => Raise ex
        end
      else
        match validator setting with
        | Some f =>
            match f (dict_get (name setting) kwargs not_set) with
            | Return v =>
                inherit_outcome D e ss' (dict_set (name setting) v kwargs)
            | Raise ex => Raise ex
            end
        | None => inherit_outcome D e ss' kwargs
        end
  end.

(** The value [__init__] gives option [setting] from [kwargs] and the
    inheritance source. *)
Definition resolution (D : gmap string value) (e : Environ)
    (setting : Setting) (kwargs : list (string * value)) : result value :=
  let given := dict_get (name setting) kwargs not_set in
  if is_not_set given then lookup_attr D e (name setting)
  else
    match validator setting with
    | Some f => f given
    | None => Return given
    end.

(** The cache and the database objects agree: entry [i] of the cache
    holds object [i] under the file it was created with, and no two
    objects were created with equal files. *)
Definition cache_wf (w : World) : Prop :=
  map snd (_db_cache w) = map ExampleDatabase (seq 0 (length (databases w)))
  /\ map fst (_db_cache w) = databases w
  /\ forall i j p q, i < j ->
       databases w !! i = Some p -> databases w !! j = Some q ->
       py_eq p q = false.

(** The instance [c] is inside [__init__]: it exists, its
    [_construction_complete] is [False] and it holds no option yet. *)
Definition under_construction (c : nat) (w : World) : Prop :=
  exists D, heap w !! c = Some D
            /\ D !! "_construction_complete" = Some (Bool false)
            /\ forall k, in_all_settings k = true -> D !! k = None.

(** From [w] to [w'] no instance other than [c] has changed, except that
    an unresolved [_database] may have been resolved to [None]. *)
Definition others_kept (c : nat) (w w' : World) : Prop :=
  forall o, o <> c ->
    (forall n, n <> "_database" -> __dict__ o w' !! n = __dict__ o w !! n)
    /\ (__dict__ o w' !! "_database" = __dict__ o w !! "_database"
        \/ (__dict__ o w !! "_database" = Some not_set
            /\ __dict__ o w' !! "_database" = Some None_)).

(** [m] relates the state it is run in to the state it leaves by [R]. *)
Definition preserves {A} (R : World -> World -> Prop) (m : M A) : Prop :=
  forall w, R w (snd (m w)).

(** [m] keeps the state property [Q]. *)
Definition keeps {A} (Q : World -> Prop) (m : M A) : Prop :=
  forall w, Q w -> Q (snd (m w)).

(** The statements of [__init__] from the storing loop on. *)
Definition init_tail_code (c : nat) (kwargs : list (string * value)) : M unit :=
  store c kwargs ;;
  let* l := new_threading_local in
  __setattr__ c "storage" l ;;
  __setattr__ c "_construction_complete" (Bool true).

Definition example_environ : Environ :=
  mkEnviron None "/home/user/.hypothesis".

Definition example_environ' : Environ :=
  mkEnviron (Some "/tmp/examples.db") "/home/user/.hypothesis".

(** The state once the module is imported under environment [e]. *)
Definition imported (e : Environ) : World :=
  snd (import_module (initial_world e)).

(** Example states: the imported module, whose only snapshot, reference
    [0], is the profile [default]; and the same after
    [settings(database_file='/tmp/a')] has made snapshot [1]. *)
Definition example_world : World := imported example_environ.

Definition example_kwargs : list (string * value) :=
  [("max_examples", Int 7); ("phases", None_)].

Definition example_world2 : World :=
  snd (settings (Some 0) [("database_file", Str "/tmp/a")] example_world).

(** * Properties *)

(** ** Registry facts *)

Lemma all_settings_get_Some n s :
  all_settings_get n = Some s -> name s = n /\ In s all_settings.
Proof.
  unfold all_settings_get. intros H.
  apply find_some in H as [Hin Heq].
  apply String.eqb_eq in Heq. auto.
Qed.

Lemma registered_cases n :
  in_all_settings n = true ->
  In n (map name all_settings).
Proof.
  unfold in_all_settings. destruct (all_settings_get n) as [s|] eqn:E; [|done].
  intros _. apply all_settings_get_Some in E as [<- Hin].
  by apply in_map.
Qed.

Lemma registered_not_whitelisted n :
  in_all_settings n = true ->
  str_in n _WHITELISTED_REAL_PROPERTIES = false /\ String.eqb n "database" = false.
Proof.
  intros H. apply registered_cases in H. simpl in H.
  repeat (destruct H as [<-|H]; [by vm_compute|]). destruct H.
Qed.

Lemma all_settings_NoDup : NoDup (map name all_settings).
Proof. apply (bool_decide_unpack _). by vm_compute. Qed.

(** ** Reading attributes *)

Lemma getattr_unfold obj n w :
  getattr_ obj n w =
    match __dict__ obj w !! n with
    | Some v => (Return v, w)
    | None => __getattr__ n w
    end.
Proof.
  unfold getattr_, except_AttributeError, settingsProperty___get__.
  by destruct (__dict__ obj w !! n).
Qed.

Lemma getattr_stored obj n w v :
  __dict__ obj w !! n = Some v -> getattr_ obj n w = (Return v, w).
Proof. intros H. by rewrite getattr_unfold, H. Qed.

(** ** Assignment after construction *)

(** C2. On a snapshot whose construction has completed, assigning any
    registered option attribute, or the [database] attribute, raises the
    immutability [AttributeError] and leaves the whole state, hence the
    snapshot's stored values, as it was. *)
Theorem setattr_complete_immutable self n v w :
  construction_complete self w ->
  in_all_settings n = true \/ n = "database" ->
  __setattr__ self n v w = (Raise (AttributeError immutable_msg), w).
Proof.
  intros Hc [Hn | ->]; unfold __setattr__.
  - destruct (registered_not_whitelisted n Hn) as [-> ->].
    unfold in_all_settings in Hn.
    destruct (all_settings_get n) as [s|]; [|done].
    unfold bind. by rewrite (getattr_stored _ _ _ _ Hc).
  - replace (str_in "database" _WHITELISTED_REAL_PROPERTIES) with false
      by reflexivity.
    rewrite String.eqb_refl. unfold bind.
    by rewrite (getattr_stored _ _ _ _ Hc).
Qed.

(** C9, as amended.  On a completed snapshot, assigning a name that is
    neither a registered option, nor [database], nor one of the
    whitelisted real properties raises the missing-attribute
    [AttributeError] and leaves the state as it was; assigning a
    whitelisted real property succeeds and stores the value. *)
Theorem setattr_complete_unregistered self n v w :
  construction_complete self w ->
  in_all_settings n = false ->
  (n <> "database" ->
   str_in n _WHITELISTED_REAL_PROPERTIES = false ->
   __setattr__ self n v w = (Raise (AttributeError ("No such setting " ++ n)), w))
  /\ (str_in n _WHITELISTED_REAL_PROPERTIES = true ->
      __setattr__ self n v w =
        (Return tt, set_heap (<[self := <[n := v]> (__dict__ self w)]> (heap w)) w)).
Proof.
  intros Hc Hn. unfold __setattr__. split.
  - intros Hd Hw. rewrite Hw.
    apply String.eqb_neq in Hd. rewrite Hd.
    unfold in_all_settings in Hn.
    by destruct (all_settings_get n).
  - intros Hw. by rewrite Hw.
Qed.

(** ** Profiles *)

Lemma settings_default_Some w d :
  default_variable w = Some d -> settings_default w = (Return (Some d), w).
Proof.
  intros H. unfold settings_default, bind, DynamicVariable_value.
  by rewrite H.
Qed.

(** C10. Loading a name with no registered profile raises the
    unknown-profile error after having recorded the name as the current
    profile: the state differs from the one before the call whenever the
    name was not already current, and a later lazy resolution of the
    default (the cell being empty) tries the same name and raises again;
    while the cell holds a default, that default is returned untried. *)
Theorem load_profile_unknown n w :
  _profiles w !! n = None ->
  let e := InvalidArgument ("Profile '" ++ n ++ "' has not been registered") in
  let w' := set__current_profile (Some n) w in
  load_profile n w = (Raise e, w')
  /\ _current_profile w' = Some n
  /\ (_current_profile w <> Some n -> w' <> w)
  /\ (default_variable w = None -> settings_default w' = (Raise e, w'))
  /\ (forall d, default_variable w = Some d ->
        settings_default w' = (Return (Some d), w')).
Proof.
  intros Hp e w'.
  assert (Hl : forall u, _profiles u = _profiles w ->
             load_profile n u = (Raise e, set__current_profile (Some n) u)).
  { intros u Hu. unfold load_profile, bind, get_profile. simpl.
    by rewrite Hu, Hp. }
  split; [by apply Hl|]. split; [done|]. split; [|split].
  - intros Hne Heq. apply Hne. by rewrite <- Heq.
  - intros Hd. unfold settings_default, bind at 1, DynamicVariable_value at 1.
    change (default_variable w') with (default_variable w). rewrite Hd.
    unfold bind at 1.
    change (_current_profile w') with (Some n).
    unfold bind at 1. by rewrite (Hl w').
  - intros d Hd. by apply settings_default_Some.
Qed.

(** C5. After [register_profile(p, S)] and [load_profile(p)], both of
    which return, the current default is [S] itself, so every registered
    option read on the current default yields what it yields on [S], in the
    new state and as it did before the two calls. *)
Theorem register_then_load p S w :
  exists w' d,
    (register_profile p S ;; load_profile p) w = (Return tt, w')
    /\ settings_default w' = (Return (Some d), w')
    /\ forall X, in_all_settings X = true ->
         getattr_ d X w' = getattr_ S X w'
         /\ fst (getattr_ d X w') = fst (getattr_ S X w).
Proof.
  exists (set_default_variable (Some S)
            (set__current_profile (Some p)
               (set__profiles (<[p := S]> (_profiles w)) w))), S.
  split; [|split].
  - unfold bind, register_profile, load_profile, bind, get_profile,
      _assign_default_internal, DynamicVariable_set_value. simpl.
    by rewrite lookup_insert_eq.
  - by apply settings_default_Some.
  - intros X HX. split; [done|].
    rewrite !getattr_unfold. unfold __dict__. simpl.
    destruct (_ !! X); [done|].
    unfold __getattr__. destruct (all_settings_get X) as [s|]; [|done].
    by destruct (default s).
Qed.

(** ** Deprecation *)

Lemma getattr_strict_world o w : snd (getattr_ o "strict" w) = w.
Proof. rewrite getattr_unfold. by destruct (_ !! _). Qed.

Lemma getattr_verbosity_world o w : snd (getattr_ o "verbosity" w) = w.
Proof. rewrite getattr_unfold. by destruct (_ !! _). Qed.

Lemma resolves_strict o w v :
  resolves o "strict" w v -> getattr_ o "strict" w = (Return v, w).
Proof.
  unfold resolves. intros H. pose proof (getattr_strict_world o w) as Hw.
  destruct (getattr_ o "strict" w). simpl in *. congruence.
Qed.

Lemma resolves_verbosity o w v :
  resolves o "verbosity" w v -> getattr_ o "verbosity" w = (Return v, w).
Proof.
  unfold resolves. intros H. pose proof (getattr_verbosity_world o w) as Hw.
  destruct (getattr_ o "verbosity" w). simpl in *. congruence.
Qed.

(** C3. With [d] the current default, read in state [w] leaving state
    [w1], and [S] the snapshot passed, [note_deprecation(m, S)] raises the
    deprecation warning as an error exactly when [strict] is true on both
    [d] and [S], and then changes nothing more.  Otherwise it returns:
    without any further effect when the verbosity of [S] is not above
    [quiet], and having issued the warning, and nothing else, when it is
    above. *)
Theorem note_deprecation_cases m S d sd ss v w w1 :
  settings_default w = (Return (Some d), w1) ->
  resolves d "strict" w1 sd ->
  resolves S "strict" w1 ss ->
  resolves S "verbosity" w1 (VerbosityV v) ->
  let warning := HypothesisDeprecationWarning m in
  let both := truthy sd && truthy ss in
  ((exists e w', note_deprecation m (Some S) w = (Raise e, w')) <-> both = true)
  /\ (both = true -> note_deprecation m (Some S) w = (Raise warning, w1))
  /\ (both = false -> (level v <= level Verbosity_quiet)%Z ->
      note_deprecation m (Some S) w = (Return tt, w1))
  /\ (both = false -> (level Verbosity_quiet < level v)%Z ->
      note_deprecation m (Some S) w =
        (Return tt, set_trace (trace w1 ++ [Warned warning]) w1)).
Proof.
  intros Hd Hsd Hss Hv warning both.
  apply resolves_strict in Hsd, Hss. apply resolves_verbosity in Hv.
  assert (Hrun : note_deprecation m (Some S) w =
            if both then (Raise warning, w1)
            else if (level Verbosity_quiet <? level v)%Z
                 then (Return tt, set_trace (trace w1 ++ [Warned warning]) w1)
                 else (Return tt, w1)).
  { unfold note_deprecation, bind at 1, ret at 1.
    unfold bind at 1. rewrite Hd. unfold bind at 1. rewrite Hsd.
    subst both. unfold bind, ret.
    destruct (truthy sd) eqn:Ea; simpl.
    - rewrite Hss, Hv. destruct (truthy ss); [done|]. simpl.
      by destruct (0 <? level v)%Z.
    - rewrite Hv, Ea. simpl.
      by destruct (0 <? level v)%Z. }
  rewrite Hrun. repeat split.
  - intros (e & w' & H). destruct both; [done|].
    by destruct (_ <? _)%Z.
  - intros ->. eauto.
  - by intros ->.
  - intros -> Hle. apply Z.ltb_ge in Hle. by rewrite Hle.
  - intros -> Hlt. apply Z.ltb_lt in Hlt. by rewrite Hlt.
Qed.

(** ** Scopes *)

Lemma defaults_stack_ready s i w :
  __dict__ s w !! "storage" = Some (threading_local i) ->
  i < length (locals w) ->
  defaults_stack s w =
    (Return i, set_locals (<[i := Some (stack i w)]> (locals w)) w).
Proof.
  intros Hs Hi.
  unfold defaults_stack, except_AttributeError, storage_defaults_stack, bind.
  rewrite (getattr_stored _ _ _ _ Hs). unfold stack.
  destruct (lookup_lt_is_Some_2 _ _ Hi) as [o Ho]. rewrite Ho.
  destruct o as [l|].
  - rewrite (list_insert_id _ _ _ Ho). by destruct w.
  - rewrite (getattr_stored _ _ _ _ Hs). simpl.
    assert (Hs' : __dict__ s (set_locals (<[i:=Some []]> (locals w)) w)
                    !! "storage" = Some (threading_local i)) by done.
    rewrite (getattr_stored _ _ _ _ Hs'). simpl.
    by rewrite list_lookup_insert_eq.
Qed.

Lemma enter_spec s i w :
  __dict__ s w !! "storage" = Some (threading_local i) ->
  i < length (locals w) ->
  __enter__ s w =
    (Return s,
     set_default_variable (Some s)
       (set_context_managers
          (context_managers w ++ [mkCM s (Some (default_variable w))])
          (set_locals
             (<[i := Some (stack i w ++ [length (context_managers w)])%list]>
                (locals w)) w))).
Proof.
  intros Hs Hi. unfold __enter__, bind, with_value.
  rewrite (defaults_stack_ready s i) by done.
  unfold list_append, cm___enter__, ret. simpl.
  rewrite list_lookup_insert_eq by done. simpl.
  rewrite list_lookup_middle by done. simpl.
  unfold stack, set_default_variable, set_context_managers, set_locals. simpl.
  do 2 f_equal.
  - apply list_insert_insert_eq.
  - rewrite insert_app_r_alt by lia. by rewrite Nat.sub_diag.
Qed.

Lemma exit_spec s i l c x old exc w :
  __dict__ s w !! "storage" = Some (threading_local i) ->
  i < length (locals w) ->
  stack i w = (l ++ [c])%list ->
  context_managers w !! c = Some (mkCM x (Some old)) ->
  __exit__ s exc w =
    (Return false,
     set_default_variable old (set_locals (<[i := Some l]> (locals w)) w)).
Proof.
  intros Hs Hi Hst Hc. unfold __exit__, bind.
  rewrite (defaults_stack_ready s i) by done.
  unfold list_pop, cm___exit__. simpl.
  rewrite list_lookup_insert_eq by done. rewrite Hst, last_snoc.
  rewrite removelast_last. simpl. rewrite Hc.
  by rewrite list_insert_insert_eq.
Qed.

Lemma scopes_preserved_refl w : scopes_preserved w w.
Proof. by repeat split. Qed.

Lemma stack_insert i j l w :
  i < length (locals w) ->
  stack j (set_locals (<[i := Some l]> (locals w)) w)
  = if decide (i = j) then l else stack j w.
Proof.
  intros Hi. unfold stack. simpl. case_decide as E.
  - subst. by rewrite list_lookup_insert_eq.
  - by rewrite list_lookup_insert_ne.
Qed.

Lemma scope_ready_after_enter s' i w W :
  locals W = <[i := Some (stack i w ++ [length (context_managers w)])%list]>
               (locals w) ->
  heap W = heap w ->
  scope_ready s' w -> scope_ready s' W.
Proof.
  intros Hl Hh (j & Hs & Hj). exists j. unfold __dict__ in *.
  rewrite Hh, Hl, length_insert. auto.
Qed.

Lemma nested_preserves body ss :
  scope_neutral body ->
  forall w, Forall (fun s => scope_ready s w) ss ->
    scopes_preserved w (snd (nested ss body w))
    /\ (exists wi, fst (nested ss body w) = fst (body wi))
    /\ (ss <> [] -> default_variable (snd (nested ss body w))
                    = default_variable w).
Proof.
  intros Hb. induction ss as [|s ss IH]; intros w Hr.
  - simpl. destruct (Hb w) as (Hl & Hc & Hs). repeat split; try done.
    + by rewrite Hl.
    + intros i. unfold stack. by rewrite Hl.
    + intros c _. by rewrite Hc.
    + by rewrite Hc.
    + by exists w.
  - apply Forall_cons in Hr as [(i & Hs & Hi) Hr].
    change (nested (s :: ss) body w) with (with_ s (nested ss body) w).
    pose proof (enter_spec s i w Hs Hi) as Hen.
    set (c := length (context_managers w)) in *.
    set (w2 := set_default_variable _ _) in Hen.
    destruct (IH w2) as ((P1 & P2 & P3 & P4 & P5) & (wi & Hwi) & _).
    { eapply Forall_impl; [exact Hr|]. intros s' Hs'.
      by eapply (scope_ready_after_enter s' i w w2). }
    destruct (nested ss body w2) as [r w3] eqn:Hn. simpl in *.
    assert (Hst : stack i w3 = (stack i w ++ [c])%list).
    { rewrite P2. unfold stack at 1. simpl.
      by rewrite list_lookup_insert_eq. }
    assert (Hcm : context_managers w3 !! c
                  = Some (mkCM s (Some (default_variable w)))).
    { rewrite P4; simpl.
      - by rewrite list_lookup_middle.
      - rewrite length_app. simpl. unfold c. lia. }
    assert (Hs3 : __dict__ s w3 !! "storage" = Some (threading_local i)).
    { by rewrite P3. }
    assert (Hi3 : i < length (locals w3)).
    { rewrite P1. simpl. by rewrite length_insert. }
    assert (Hex : forall exc, __exit__ s exc w3 =
              (Return false,
               set_default_variable (default_variable w)
                 (set_locals (<[i := Some (stack i w)]> (locals w3)) w3))).
    { intros exc. by eapply exit_spec. }
    set (w4 := set_default_variable (default_variable w)
                 (set_locals (<[i := Some (stack i w)]> (locals w3)) w3)).
    assert (Hres : with_ s (nested ss body) w = (r, w4)).
    { unfold with_, bind at 1. rewrite Hen, Hn.
      destruct r as [[]|e]; unfold bind; by rewrite Hex. }
    rewrite Hres. simpl. split; [|split].
    + repeat split; simpl.
      * rewrite length_insert, P1. simpl. by rewrite length_insert.
      * intros j. unfold stack at 1. simpl.
        destruct (decide (i = j)) as [<-|Hne].
        -- by rewrite list_lookup_insert_eq.
        -- rewrite list_lookup_insert_ne by done.
           change (stack j w3 = stack j w). rewrite P2.
           unfold stack at 1. simpl. by rewrite list_lookup_insert_ne.
      * intros s'. change (__dict__ s' w3 !! "storage"
                            = __dict__ s' w !! "storage"). by rewrite P3.
      * intros c' Hc'. rewrite P4; simpl.
        -- by rewrite lookup_app_l.
        -- rewrite length_app. lia.
      * etrans; [|exact P5]. simpl. rewrite length_app. lia.
    + by exists wi.
    + done.
Qed.

(** C4. Entering the snapshots [s :: ss] as nested scopes around a body
    and leaving them in reverse order puts the default cell back to the
    value it had before the first entry, whether the body returns or
    raises; a raise then leaves the outermost scope unswallowed.  With a
    default [d] in the cell before, [d] is again the current default
    after. *)
Theorem nested_scopes_restore_default s ss body w :
  Forall (fun x => scope_ready x w) (s :: ss) ->
  scope_neutral body ->
  let r := nested (s :: ss) body w in
  default_variable (snd r) = default_variable w
  /\ (exists wi, fst r = fst (body wi))
  /\ (forall d, default_variable w = Some d ->
        settings_default (snd r) = (Return (Some d), snd r)).
Proof.
  intros Hr Hb r.
  destruct (nested_preserves body (s :: ss) Hb w Hr) as (_ & Hres & Hd).
  specialize (Hd ltac:(done)). fold r in Hd, Hres.
  split; [done|]. split; [done|].
  intros d Hw. apply settings_default_Some. by rewrite Hd.
Qed.

(** ** Default functions are called on every read *)

Lemma getattr_run o n w :
  exists t, getattr_ o n w
            = (lookup_attr (__dict__ o w) (environ w) n, set_trace t w).
Proof.
  rewrite getattr_unfold. unfold lookup_attr, __getattr__.
  destruct (__dict__ o w !! n); [exists (trace w); by destruct w|].
  destruct (all_settings_get n) as [s|]; [|exists (trace w); by destruct w].
  destruct (default s); [exists (trace w); by destruct w|].
  by eexists.
Qed.

Lemma getattr_never_stores o n w : heap (snd (getattr_ o n w)) = heap w.
Proof. destruct (getattr_run o n w) as [t ->]. done. Qed.

(** ** The database property *)

Lemma dict_set_trace o t w : __dict__ o (set_trace t w) = __dict__ o w.
Proof. done. Qed.

Lemma set_trace_set_trace t t' w : set_trace t (set_trace t' w) = set_trace t w.
Proof. done. Qed.

Lemma set_trace_id w : set_trace (trace w) w = w.
Proof. by destruct w. Qed.

Lemma cache_find_None_set k v c :
  cache_find k c = None -> cache_set k v c = (c ++ [(k, v)])%list.
Proof.
  unfold cache_find. induction c as [|kv c IH]; simpl; [done|].
  destruct (py_eq kv.1 k); [done|]. intros H. by rewrite IH.
Qed.

Lemma lookup_attr_database D e d :
  lookup_attr D e "_database" = Return d -> D !! "_database" = Some d.
Proof.
  unfold lookup_attr. destruct (D !! "_database"); [congruence|done].
Qed.

Lemma dict_nonempty_valid o w n v :
  __dict__ o w !! n = Some v -> heap w !! o = Some (__dict__ o w).
Proof.
  unfold __dict__. destruct (heap w !! o); [done|].
  by rewrite lookup_empty.
Qed.

Lemma dict_after_setattr o n v w :
  o < length (heap w) ->
  __dict__ o (set_heap (<[o := <[n := v]> (__dict__ o w)]> (heap w)) w)
  = <[n := v]> (__dict__ o w).
Proof.
  intros H. unfold __dict__ at 1. simpl.
  by rewrite list_lookup_insert_eq.
Qed.

Lemma setattr_whitelisted self n v :
  str_in n _WHITELISTED_REAL_PROPERTIES = true ->
  __setattr__ self n v = object___setattr__ self n v.
Proof. intros H. unfold __setattr__. by rewrite H. Qed.

Ltac step_read :=
  match goal with
  | |- context [getattr_ ?o ?n ?W] =>
      let t := fresh "t" in
      destruct (getattr_run o n W) as [t ->];
      rewrite ?dict_set_trace; simpl environ
  end.

Lemma database_run self w :
  exists t, database self w
            = (fst (database_outcome self w),
               set_trace t (snd (database_outcome self w))).
Proof.
  unfold database, database_outcome, bind.
  step_read.
  destruct (lookup_attr (__dict__ self w) (environ w) "_database")
    as [d|ex] eqn:Ed; [|by eexists].
  destruct (is_not_set d) eqn:Ens.
  2:{ unfold ret. step_read. rewrite Ed, Ens. step_read. rewrite Ed.
      by eexists. }
  step_read.
  destruct (lookup_attr (__dict__ self w) (environ w) "database_file")
    as [f|ex] eqn:Ef; [|by eexists].
  unfold ret.
  destruct (is_None f) eqn:En;
    [change (negb true) with false | change (negb false) with true];
    cbv beta iota.
  - step_read. rewrite Ed, Ens.
    apply lookup_attr_database in Ed.
    pose proof (dict_nonempty_valid _ _ _ _ Ed) as Hv.
    apply lookup_lt_Some in Hv.
    rewrite setattr_whitelisted by done.
    unfold object___setattr__. rewrite !dict_set_trace.
    rewrite getattr_unfold.
    match goal with |- context [__dict__ self ?W] =>
      replace (__dict__ self W) with (<["_database" := None_]> (__dict__ self w))
    end.
    2:{ unfold __dict__ at 2. simpl heap.
        by rewrite list_lookup_insert_eq. }
    rewrite lookup_insert_eq. by eexists.
  - step_read. rewrite Ef.
    unfold _db_cache_contains. simpl _db_cache.
    destruct (hashable f) eqn:Eh; [|by eexists].
    destruct (cache_find f (_db_cache w)) as [v|] eqn:Ec.
    + step_read. rewrite Ef.
      unfold _db_cache_getitem. rewrite Eh. simpl _db_cache. rewrite Ec.
      by eexists.
    + step_read. rewrite Ef.
      unfold new_ExampleDatabase. simpl databases.
      step_read.
      replace (__dict__ self _) with (__dict__ self w) by done. rewrite Ef.
      unfold _db_cache_setitem. rewrite Eh. simpl _db_cache.
      step_read.
      replace (__dict__ self _) with (__dict__ self w) by done. rewrite Ef.
      unfold _db_cache_getitem. rewrite Eh. simpl _db_cache.
      destruct (cache_find f (cache_set _ _ _)); eexists; reflexivity.
Qed.

Lemma py_eq_Str k p : py_eq k (Str p) = true -> k = Str p.
Proof.
  destruct k as [| |b|z|s|v|q|h|l|l|i|i]; simpl; try done.
  intros H. apply String.eqb_eq in H. by subst.
Qed.

Lemma cache_find_Some k v c :
  cache_find k c = Some v ->
  exists i key, c !! i = Some (key, v) /\ py_eq key k = true.
Proof.
  unfold cache_find.
  destruct (find _ c) as [[key v']|] eqn:E; [|done].
  intros [= <-]. apply find_some in E as [Hin Hk].
  apply list_elem_of_In, list_elem_of_lookup in Hin as [i Hi]. eauto.
Qed.

Lemma cache_find_None k c key v :
  cache_find k c = None -> In (key, v) c -> py_eq key k = false.
Proof.
  unfold cache_find.
  destruct (find _ c) eqn:E; [done|]. intros _ Hin.
  apply (find_none _ _ E) in Hin. done.
Qed.

Lemma cache_find_app k c c' v :
  cache_find k c = Some v -> cache_find k (c ++ c') = Some v.
Proof.
  unfold cache_find. induction c as [|kv c IH]; simpl; [done|].
  by destruct (py_eq kv.1 k).
Qed.

Lemma cache_wf_set_trace t w : cache_wf (set_trace t w) <-> cache_wf w.
Proof. done. Qed.

Lemma cache_wf_value w k v :
  cache_wf w -> cache_find k (_db_cache w) = Some v ->
  exists i, v = ExampleDatabase i /\ exists key, _db_cache w !! i = Some (key, v).
Proof.
  intros (Hs & _ & _) Hf.
  apply cache_find_Some in Hf as (i & key & Hi & _).
  exists i. split; [|eauto].
  assert (H : map snd (_db_cache w) !! i = Some v).
  { by rewrite list_lookup_fmap, Hi. }
  rewrite Hs, list_lookup_fmap in H.
  destruct (seq 0 (length (databases w)) !! i) as [x|] eqn:Ex; [|done].
  apply lookup_seq in Ex as [-> _]. simpl in H. congruence.
Qed.

Lemma cache_wf_injective w p1 p2 v :
  cache_wf w ->
  cache_find (Str p1) (_db_cache w) = Some v ->
  cache_find (Str p2) (_db_cache w) = Some v ->
  p1 = p2.
Proof.
  intros Hwf H1 H2.
  destruct (cache_wf_value _ _ _ Hwf H1) as (i & -> & _).
  destruct Hwf as (Hs & _ & _).
  apply cache_find_Some in H1 as (i1 & k1 & Hi1 & Hk1).
  apply cache_find_Some in H2 as (i2 & k2 & Hi2 & Hk2).
  assert (Hidx : forall j key, _db_cache w !! j = Some (key, ExampleDatabase i)
                   -> j = i).
  { intros j key Hj.
    assert (H : map snd (_db_cache w) !! j = Some (ExampleDatabase i)).
    { by rewrite list_lookup_fmap, Hj. }
    rewrite Hs, list_lookup_fmap in H.
    destruct (seq 0 (length (databases w)) !! j) as [x|] eqn:Ex; [|done].
    apply lookup_seq in Ex as [-> _]. simpl in H. congruence. }
  apply Hidx in Hi1 as Ha. apply Hidx in Hi2 as Hb. subst i1 i2.
  rewrite Hi1 in Hi2. injection Hi2 as <-.
  apply py_eq_Str in Hk1, Hk2. congruence.
Qed.

Lemma database_outcome_cache_wf self w :
  cache_wf w -> cache_wf (snd (database_outcome self w)).
Proof.
  intros Hwf. unfold database_outcome.
  destruct (lookup_attr _ _ "_database") as [d|]; [|done].
  destruct (is_not_set d); [|done].
  destruct (lookup_attr _ _ "database_file") as [f|]; [|done].
  destruct (is_None f); [done|].
  destruct (hashable f); [|done].
  destruct (cache_find f (_db_cache w)) as [v|] eqn:Ec; [done|].
  assert (Hwf' : cache_wf
            (set__db_cache
               (cache_set f (ExampleDatabase (length (databases w)))
                  (_db_cache w))
               (set_databases (databases w ++ [f]) w))).
  { destruct Hwf as (Hs & Hk & Hd).
    rewrite (cache_find_None_set _ _ _ Ec).
    unfold cache_wf. simpl. split; [|split].
    - rewrite map_app, Hs, length_app. simpl.
      rewrite Nat.add_1_r, seq_S, map_app. done.
    - by rewrite map_app, Hk.
    - intros i j p q Hij Hi Hj.
      destruct (decide (j < length (databases w))) as [Hlt|Hge].
      + rewrite lookup_app_l in Hi by lia.
        rewrite lookup_app_l in Hj by lia. eauto.
      + apply lookup_lt_Some in Hj as Hj'.
        rewrite length_app in Hj'. simpl in Hj'.
        assert (j = length (databases w)) as -> by lia.
        rewrite list_lookup_middle in Hj by done. injection Hj as <-.
        rewrite lookup_app_l in Hi by lia.
        rewrite <- Hk, list_lookup_fmap in Hi.
        destruct (_db_cache w !! i) as [[key v]|] eqn:Ei; [|done].
        simpl in Hi. injection Hi as ->.
        eapply (cache_find_None _ _ _ _ Ec).
        apply list_elem_of_In, list_elem_of_lookup. eauto. }
  by destruct (cache_find f (cache_set _ _ _)).
Qed.

Lemma database_cache_wf self w :
  cache_wf w -> cache_wf (snd (database self w)).
Proof.
  intros Hwf. destruct (database_run self w) as [t ->]. simpl.
  by apply cache_wf_set_trace, database_outcome_cache_wf.
Qed.

Lemma cache_find_snoc_Str p v c :
  cache_find (Str p) c = None ->
  cache_find (Str p) (c ++ [(Str p, v)]) = Some v.
Proof.
  unfold cache_find. induction c as [|kv c IH]; simpl.
  - by rewrite String.eqb_refl.
  - destruct (py_eq kv.1 (Str p)); [done|]. exact IH.
Qed.

Lemma resolves_lookup_attr o n w v :
  resolves o n w v <-> lookup_attr (__dict__ o w) (environ w) n = Return v.
Proof. unfold resolves. by destruct (getattr_run o n w) as [t ->]. Qed.

Lemma database_str_spec s p w :
  cache_wf w ->
  __dict__ s w !! "_database" = Some not_set ->
  resolves s "database_file" w (Str p) ->
  exists i t W,
    database s w = (Return (ExampleDatabase i), set_trace t W)
    /\ heap W = heap w /\ environ W = environ w
    /\ cache_wf W
    /\ cache_find (Str p) (_db_cache W) = Some (ExampleDatabase i)
    /\ exists ext, _db_cache W = (_db_cache w ++ ext)%list.
Proof.
  intros Hwf Hd Hf. apply resolves_lookup_attr in Hf.
  destruct (database_run s w) as [t Hrun].
  pose proof (database_outcome_cache_wf s w Hwf) as Hwf'.
  revert Hrun Hwf'. unfold database_outcome.
  assert (lookup_attr (__dict__ s w) (environ w) "_database" = Return not_set)
    as -> by (unfold lookup_attr; by rewrite Hd).
  rewrite Hf. simpl.
  destruct (cache_find (Str p) (_db_cache w)) as [v|] eqn:Ec.
  - simpl. intros Hrun _.
    destruct (cache_wf_value _ _ _ Hwf Ec) as (i & -> & _).
    exists i, t, w. do 5 (split; [done|]).
    exists nil. by rewrite app_nil_r.
  - rewrite (cache_find_None_set _ _ _ Ec).
    rewrite (cache_find_snoc_Str _ _ _ Ec). simpl. intros Hrun Hwf'.
    eexists _, t, _. split; [exact Hrun|]. do 3 (split; [done|]).
    split; simpl.
    + by apply cache_find_snoc_Str.
    + by eexists.
Qed.

(** C8. Two snapshots without an explicit database whose
    [database_file] is the same path read [database] as the very same
    cached object; for two different paths the objects differ.  The reads
    keep the cache well formed, so that no two database objects of the
    process were created with the same path. *)
Theorem database_cached_per_path s1 s2 p1 p2 w :
  cache_wf w ->
  __dict__ s1 w !! "_database" = Some not_set ->
  __dict__ s2 w !! "_database" = Some not_set ->
  resolves s1 "database_file" w (Str p1) ->
  resolves s2 "database_file" w (Str p2) ->
  exists i j w1 w2,
    database s1 w = (Return (ExampleDatabase i), w1)
    /\ database s2 w1 = (Return (ExampleDatabase j), w2)
    /\ (p1 = p2 -> i = j)
    /\ (p1 <> p2 -> i <> j)
    /\ cache_wf w2
    /\ forall a b p, databases w2 !! a = Some (Str p) ->
         databases w2 !! b = Some (Str p) -> a = b.
Proof.
  intros Hwf H1 H2 Hp1 Hp2.
  destruct (database_str_spec s1 p1 w Hwf H1 Hp1)
    as (i & t1 & W1 & Hr1 & Hh1 & He1 & Hwf1 & Hc1 & ext1 & Hx1).
  assert (Hd2 : __dict__ s2 (set_trace t1 W1) = __dict__ s2 w).
  { unfold __dict__. simpl. by rewrite Hh1. }
  assert (Hp2' : resolves s2 "database_file" (set_trace t1 W1) (Str p2)).
  { apply resolves_lookup_attr. rewrite Hd2. simpl. rewrite He1.
    by apply resolves_lookup_attr. }
  destruct (database_str_spec s2 p2 (set_trace t1 W1)) as
    (j & t2 & W2 & Hr2 & Hh2 & He2 & Hwf2 & Hc2 & ext2 & Hx2);
    [done| by rewrite Hd2 | done |].
  simpl in Hx2.
  assert (Hc1' : cache_find (Str p1) (_db_cache W2) = Some (ExampleDatabase i)).
  { rewrite Hx2. by apply cache_find_app. }
  exists i, j, (set_trace t1 W1), (set_trace t2 W2).
  split; [done|]. split; [done|]. split; [|split; [|split]].
  - intros <-. congruence.
  - intros Hne <-. apply Hne. by eapply (cache_wf_injective W2).
  - done.
  - intros a b p Ha Hb. simpl in Ha, Hb.
    destruct Hwf2 as (_ & _ & Hd).
    destruct (Nat.lt_trichotomy a b) as [Hlt|[->|Hgt]]; [|done|].
    + specialize (Hd a b _ _ Hlt Ha Hb). simpl in Hd.
      by rewrite String.eqb_refl in Hd.
    + specialize (Hd b a _ _ Hgt Hb Ha). simpl in Hd.
      by rewrite String.eqb_refl in Hd.
Qed.

(** ** Construction *)

Lemma dict_get_set_eq k v d dflt : dict_get k (dict_set k v d) dflt = v.
Proof.
  unfold dict_get. induction d as [|[k' v'] d IH]; simpl.
  - by rewrite String.eqb_refl.
  - destruct (String.eqb k k') eqn:E; simpl.
    + by rewrite String.eqb_refl.
    + by rewrite E.
Qed.

Lemma dict_get_set_ne k k' v d dflt :
  k <> k' -> dict_get k' (dict_set k v d) dflt = dict_get k' d dflt.
Proof.
  intros Hne. unfold dict_get. induction d as [|[k0 v0] d IH]; simpl.
  - assert (String.eqb k' k = false) as -> by (apply String.eqb_neq; congruence).
    done.
  - destruct (String.eqb k k0) eqn:E; simpl.
    + apply String.eqb_eq in E as <-.
      assert (String.eqb k' k = false) as ->
          by (apply String.eqb_neq; congruence).
      done.
    + destruct (String.eqb k' k0); [done|]. exact IH.
Qed.

Lemma dict_set_keys k v d :
  forall k', In k' (map fst (dict_set k v d)) <-> k' = k \/ In k' (map fst d).
Proof.
  intros k'. induction d as [|[k0 v0] d IH]; simpl.
  - intuition congruence.
  - destruct (String.eqb k k0) eqn:E; simpl.
    + apply String.eqb_eq in E as <-. intuition congruence.
    + rewrite IH. intuition congruence.
Qed.

Lemma dict_set_NoDup k v d :
  NoDup (map fst d) -> NoDup (map fst (dict_set k v d)).
Proof.
  induction d as [|[k0 v0] d IH]; simpl; intros Hnd.
  - repeat constructor. by intros ?%elem_of_nil.
  - apply NoDup_cons in Hnd as [Hnot Hnd].
    destruct (String.eqb k k0) eqn:E; simpl.
    + apply String.eqb_eq in E as <-. by apply NoDup_cons.
    + apply NoDup_cons. split; [|by apply IH].
      rewrite list_elem_of_In, dict_set_keys.
      intros [->|Hin].
      * by rewrite String.eqb_refl in E.
      * by apply Hnot, list_elem_of_In.
Qed.

Lemma dict_get_In k d dflt :
  In k (map fst d) -> In (k, dict_get k d dflt) d.
Proof.
  unfold dict_get. induction d as [|[k0 v0] d IH]; simpl; [done|].
  destruct (String.eqb k k0) eqn:E.
  - apply String.eqb_eq in E as <-. auto.
  - intros [->|Hin]; [by rewrite String.eqb_refl in E|]. auto.
Qed.

Lemma dict_get_NoDup k v d dflt :
  NoDup (map fst d) -> In (k, v) d -> dict_get k d dflt = v.
Proof.
  unfold dict_get. induction d as [|[k0 v0] d IH]; simpl; [done|].
  intros Hnd%NoDup_cons [Heq|Hin].
  - injection Heq as -> ->. by rewrite String.eqb_refl.
  - destruct Hnd as [Hnot Hnd].
    destruct (String.eqb k k0) eqn:E; [|by apply IH].
    apply String.eqb_eq in E as <-. exfalso. apply Hnot.
    apply list_elem_of_In. by apply (in_map fst) in Hin.
Qed.

Lemma dict_get_remove k k' d dflt :
  k <> k' -> dict_get k' (dict_remove k d) dflt = dict_get k' d dflt.
Proof.
  intros Hne. unfold dict_get, dict_remove.
  induction d as [|[k0 v0] d IH]; [done|].
  simpl.
  destruct (String.eqb k' k0) eqn:E1.
  - apply String.eqb_eq in E1 as <-.
    assert (String.eqb k k' = false) as -> by by apply String.eqb_neq.
    simpl. by rewrite String.eqb_refl.
  - destruct (String.eqb k k0); simpl; [done|]. by rewrite E1.
Qed.

Lemma inherit_run P ss :
  forall kw w, exists t,
    inherit P ss kw w
    = (inherit_outcome (__dict__ P w) (environ w) ss kw, set_trace t w).
Proof.
  induction ss as [|s ss IH]; intros kw w; simpl.
  - exists (trace w). unfold ret. by rewrite set_trace_id.
  - unfold bind at 1.
    destruct (is_not_set (dict_get (name s) kw not_set)).
    + unfold bind. step_read.
      destruct (lookup_attr (__dict__ P w) (environ w) (name s)) as [v|ex];
        [|by eexists].
      unfold ret.
      destruct (IH (dict_set (name s) v kw) (set_trace t w)) as [t' ->].
      by exists t'.
    + destruct (validator s) as [f|].
      * destruct (f (dict_get (name s) kw not_set)) as [v|ex].
        -- unfold ret. destruct (IH (dict_set (name s) v kw) w) as [t' ->].
           by exists t'.
        -- exists (trace w). unfold raise. by rewrite set_trace_id.
      * unfold ret. destruct (IH kw w) as [t' ->]. by exists t'.
Qed.

Lemma resolution_dict_ext D e s kw kw' :
  dict_get (name s) kw' not_set = dict_get (name s) kw not_set ->
  resolution D e s kw' = resolution D e s kw.
Proof. unfold resolution. by intros ->. Qed.

Lemma inherit_outcome_spec D e ss :
  NoDup (map name ss) ->
  forall kw kw', inherit_outcome D e ss kw = Return kw' ->
    (forall s, In s ss ->
       resolution D e s kw = Return (dict_get (name s) kw' not_set)
       /\ In (name s) (map fst kw'))
    /\ (forall k, ~ In k (map name ss) ->
          dict_get k kw' not_set = dict_get k kw not_set)
    /\ (forall k, In k (map fst kw) -> In k (map fst kw'))
    /\ (NoDup (map fst kw) -> NoDup (map fst kw')).
Proof.
  induction ss as [|s ss IH]; intros Hnd kw kw' Hrun.
  - simpl in Hrun. injection Hrun as <-. by repeat split.
  - simpl in Hnd. apply NoDup_cons in Hnd as [Hs Hnd].
    rewrite list_elem_of_In in Hs.
    assert (Hstep : exists kw1,
               inherit_outcome D e ss kw1 = Return kw'
               /\ resolution D e s kw = Return (dict_get (name s) kw1 not_set)
               /\ In (name s) (map fst kw1)
               /\ (forall k, k <> name s ->
                     dict_get k kw1 not_set = dict_get k kw not_set)
               /\ (forall k, In k (map fst kw) -> In k (map fst kw1))
               /\ (NoDup (map fst kw) -> NoDup (map fst kw1))).
    { simpl in Hrun. unfold resolution.
      destruct (is_not_set (dict_get (name s) kw not_set)) eqn:Ens.
      - destruct (lookup_attr D e (name s)) as [v|ex]; [|done].
        exists (dict_set (name s) v kw). split; [done|].
        rewrite dict_get_set_eq. split; [done|]. split; [|split; [|split]].
        + apply dict_set_keys. by left.
        + intros k Hk. by apply dict_get_set_ne.
        + intros k Hk. apply dict_set_keys. by right.
        + apply dict_set_NoDup.
      - destruct (validator s) as [f|].
        + destruct (f (dict_get (name s) kw not_set)) as [v|ex]; [|done].
          exists (dict_set (name s) v kw). split; [done|].
          rewrite dict_get_set_eq. split; [done|]. split; [|split; [|split]].
          * apply dict_set_keys. by left.
          * intros k Hk. by apply dict_get_set_ne.
          * intros k Hk. apply dict_set_keys. by right.
          * apply dict_set_NoDup.
        + exists kw. split; [done|]. split; [done|]. split; [|done].
          unfold dict_get in Ens.
          destruct (find _ kw) as [[k0 v0]|] eqn:Ef; [|done].
          apply find_some in Ef as [Hin Hk]. simpl in Hk.
          apply String.eqb_eq in Hk as ->.
          by apply (in_map fst) in Hin. }
    destruct Hstep as (kw1 & Hrun1 & Hres & Hkey & Hother & Hmono & Hnd1).
    destruct (IH Hnd kw1 kw' Hrun1) as (I1 & I2 & I3 & I4).
    split; [|split; [|split]].
    + intros s' [<-|Hin].
      * rewrite I2 by done. auto.
      * destruct (I1 s' Hin) as [Hr Hk]. split; [|done].
        rewrite <- Hr. symmetry. apply resolution_dict_ext, Hother.
        intros Heq. apply Hs. rewrite <- Heq. by apply in_map.
    + intros k Hk. simpl in Hk.
      rewrite I2 by tauto. apply Hother. intros ->. tauto.
    + auto.
    + auto.
Qed.

Lemma dict_valid o w D : heap w !! o = Some D -> __dict__ o w = D.
Proof. unfold __dict__. by intros ->. Qed.

Lemma setattr_option_under_construction self n v w D w' :
  in_all_settings n = true ->
  heap w !! self = Some D ->
  D !! "_construction_complete" = Some (Bool false) ->
  __setattr__ self n v w = (Return tt, w') ->
  w' = set_heap (<[self := <[n := v]> D]> (heap w)) w.
Proof.
  intros Hn Hv Hc. unfold __setattr__.
  destruct (registered_not_whitelisted n Hn) as [-> ->].
  unfold in_all_settings in Hn.
  destruct (all_settings_get n) as [s|]; [|done].
  unfold bind. rewrite getattr_unfold, (dict_valid _ _ _ Hv), Hc. simpl.
  destruct (options s) as [opts|].
  - destruct (negb (in_options v opts)); [done|].
    unfold object___setattr__. rewrite (dict_valid _ _ _ Hv). congruence.
  - unfold object___setattr__. rewrite (dict_valid _ _ _ Hv). congruence.
Qed.

Lemma registered_ne_whitelisted n k :
  in_all_settings n = true ->
  str_in k _WHITELISTED_REAL_PROPERTIES = true -> n <> k.
Proof.
  intros Hn Hk ->. destruct (registered_not_whitelisted k Hn). congruence.
Qed.

Lemma store_spec self items :
  forall w w' D,
    store self items w = (Return tt, w') ->
    heap w !! self = Some D ->
    D !! "_construction_complete" = Some (Bool false) ->
    exists D',
      w' = set_heap (<[self := D']> (heap w)) w
      /\ (forall k, ~ In k (map fst items) -> D' !! k = D !! k)
      /\ (NoDup (map fst items) ->
          forall k v, In (k, v) items -> D' !! k = Some v)
      /\ (forall k, In k (map fst items) -> in_all_settings k = true).
Proof.
  induction items as [|[n v] items IH]; intros w w' D Hrun Hv Hc.
  - simpl in Hrun. injection Hrun as <-. exists D.
    rewrite (list_insert_id _ _ _ Hv). split; [by destruct w|].
    by repeat split.
  - simpl in Hrun.
    destruct (in_all_settings n) eqn:Hn; [|done]. simpl in Hrun.
    unfold bind in Hrun.
    destruct (__setattr__ self n v w) as [[[]|ex] w1] eqn:Es; [|done].
    apply (setattr_option_under_construction _ _ _ _ D) in Es; try done.
    assert (Hlt : self < length (heap w)) by by eapply lookup_lt_Some.
    destruct (IH w1 w' (<[n := v]> D) Hrun) as (D' & -> & I1 & I2 & I3).
    { subst w1. simpl. by rewrite list_lookup_insert_eq. }
    { rewrite lookup_insert_ne; [done|].
      by apply registered_ne_whitelisted. }
    exists D'. subst w1. simpl. rewrite list_insert_insert_eq.
    split; [done|]. split; [|split].
    + intros k Hk. simpl in Hk. rewrite I1 by tauto.
      rewrite lookup_insert_ne; [done|]. tauto.
    + intros Hnd k u Hin. simpl in Hnd. apply NoDup_cons in Hnd as [Hnot Hnd].
      destruct Hin as [Heq|Hin].
      * injection Heq as <- <-. rewrite I1.
        -- by rewrite lookup_insert_eq.
        -- by rewrite <- list_elem_of_In.
      * by apply I2.
    + intros k [<-|Hk]; [done|]. by apply I3.
Qed.

Lemma database_outcome_frame P W :
  let Wo := snd (database_outcome P W) in
  length (heap Wo) = length (heap W)
  /\ (forall o, o <> P -> heap Wo !! o = heap W !! o)
  /\ (forall n, n <> "_database" -> __dict__ P Wo !! n = __dict__ P W !! n)
  /\ locals Wo = locals W
  /\ environ Wo = environ W
  /\ trace Wo = trace W
  /\ exists ext, _db_cache Wo = (_db_cache W ++ ext)%list.
Proof.
  assert (Hid : forall c : list (value * value), exists ext, c = (c ++ ext)%list).
  { intros c. exists nil. by rewrite app_nil_r. }
  unfold database_outcome.
  destruct (lookup_attr _ _ "_database") as [d|]; [|by repeat split].
  destruct (is_not_set d); [|by repeat split].
  destruct (lookup_attr _ _ "database_file") as [f|]; [|by repeat split].
  destruct (is_None f).
  - simpl. split; [by rewrite length_insert|]. split; [|split].
    + intros o Ho. by rewrite list_lookup_insert_ne.
    + intros n Hn. unfold __dict__ at 1. simpl.
      destruct (decide (P < length (heap W))) as [Hlt|Hge].
      * rewrite list_lookup_insert_eq by done. by rewrite lookup_insert_ne.
      * rewrite list_insert_ge by lia. done.
    + by repeat split.
  - destruct (hashable f); [|by repeat split].
    destruct (cache_find f (_db_cache W)) as [v|] eqn:Ec; [by repeat split|].
    rewrite (cache_find_None_set _ _ _ Ec).
    destruct (cache_find f (_ ++ _)); simpl; repeat split; by eexists.
Qed.

Lemma setattr_whitelisted_valid o n v D w :
  str_in n _WHITELISTED_REAL_PROPERTIES = true ->
  heap w !! o = Some D ->
  __setattr__ o n v w
  = (Return tt, set_heap (<[o := <[n := v]> D]> (heap w)) w).
Proof.
  intros Hn Hv. rewrite setattr_whitelisted by done.
  unfold object___setattr__. by rewrite (dict_valid _ _ _ Hv).
Qed.

Lemma init_tail c kw1 W D1 w1 :
  heap W !! c = Some D1 ->
  D1 !! "_construction_complete" = Some (Bool false) ->
  (store c kw1 ;;
   let* l := new_threading_local in
   __setattr__ c "storage" l ;;
   __setattr__ c "_construction_complete" (Bool true)) W = (Return tt, w1) ->
  exists Df,
    (heap w1 = <[c := Df]> (heap W) /\ environ w1 = environ W
     /\ _db_cache w1 = _db_cache W /\ databases w1 = databases W)
    /\ Df !! "_database" = D1 !! "_database"
    /\ Df !! "_construction_complete" = Some (Bool true)
    /\ (NoDup (map fst kw1) ->
        forall k v, In (k, v) kw1 -> Df !! k = Some v).
Proof.
  intros Hc Hcc Hrun. unfold bind at 1 in Hrun.
  destruct (store c kw1 W) as [[[]|ex] W1] eqn:Hst; [|done].
  destruct (store_spec c kw1 W W1 D1 Hst Hc Hcc) as (D' & -> & S1 & S2 & S3).
  assert (Hlt : c < length (heap W)) by by eapply lookup_lt_Some.
  unfold bind at 1, new_threading_local at 1 in Hrun.
  unfold bind at 1 in Hrun.
  rewrite (setattr_whitelisted_valid c _ _ D') in Hrun;
    [|done|simpl; by apply list_lookup_insert_eq].
  rewrite (setattr_whitelisted_valid c _ _
             (<["storage" := threading_local (length (locals W))]> D'))
    in Hrun; [|done|simpl; apply list_lookup_insert_eq; by rewrite length_insert].
  injection Hrun as <-. simpl.
  assert (Hreg : forall k, In k (map fst kw1) ->
            k <> "storage" /\ k <> "_construction_complete"
            /\ k <> "_database").
  { intros k Hk. apply S3 in Hk.
    repeat split; by apply registered_ne_whitelisted. }
  eexists. split; [|split; [|split]].
  - rewrite !list_insert_insert_eq. by repeat split.
  - rewrite !lookup_insert_ne by done. apply S1.
    intros Hin. by destruct (Hreg _ Hin) as (_ & _ & ?).
  - by rewrite lookup_insert_eq.
  - intros Hnd k v Hin.
    destruct (Hreg k) as (? & ? & ?); [by apply (in_map fst) in Hin|].
    rewrite !lookup_insert_ne by done. by apply S2.
Qed.

Lemma settings_child_spec P kwargs w c w' :
  P < length (heap w) ->
  settings (Some P) kwargs w = (Return c, w') ->
  let kw0 := dict_remove "database" kwargs in
  let db0 := dict_get "database" kwargs not_set in
  c = length (heap w)
  /\ exists kw1 Wd Wo dbv Df,
      inherit_outcome (__dict__ P w) (environ w) all_settings kw0 = Return kw1
      /\ (__dict__ P Wd = __dict__ P w /\ environ Wd = environ w
          /\ _db_cache Wd = _db_cache w /\ databases Wd = databases w)
      /\ (if is_not_set db0 && is_not_set (dict_get "database_file" kw0 not_set)
          then database_outcome P Wd = (Return dbv, Wo)
          else dbv = db0 /\ Wo = Wd)
      /\ (heap w' = <[c := Df]> (heap Wo) /\ c < length (heap Wo)
          /\ environ w' = environ Wo /\ _db_cache w' = _db_cache Wo
          /\ databases w' = databases Wo)
      /\ Df !! "_database" = Some dbv
      /\ Df !! "_construction_complete" = Some (Bool true)
      /\ (NoDup (map fst kw1) ->
          forall k v, In (k, v) kw1 -> Df !! k = Some v).
Proof.
  intros HP Hrun kw0 db0.
  unfold settings, bind at 1, new_settings in Hrun.
  unfold bind at 1 in Hrun.
  destruct (__init__ _ _ _ _) as [[[]|ex] w1] eqn:Hinit; [|done].
  injection Hrun as <- <-. split; [done|].
  set (c := length (heap w)) in *.
  unfold __init__ in Hinit.
  unfold bind at 1 in Hinit.
  rewrite (setattr_whitelisted_valid c _ _ ∅) in Hinit;
    [|done|by apply list_lookup_middle].
  unfold bind at 1 in Hinit.
  rewrite (setattr_whitelisted_valid c _ _
             (<["_construction_complete" := Bool false]> ∅)) in Hinit;
    [|done|simpl; apply list_lookup_insert_eq; rewrite length_app; simpl; lia].
  simpl heap in Hinit. rewrite list_insert_insert_eq in Hinit.
  set (D0 := <["_database" := dict_get "database" kwargs not_set]> _) in Hinit.
  set (W0 := set_heap _ _) in Hinit.
  assert (Hc0 : heap W0 !! c = Some D0).
  { simpl. apply list_lookup_insert_eq. rewrite length_app. simpl. lia. }
  assert (HP0 : __dict__ P W0 = __dict__ P w).
  { unfold __dict__. simpl.
    rewrite list_lookup_insert_ne by lia. by rewrite lookup_app_l. }
  unfold bind at 1, ret at 1 in Hinit.
  unfold bind at 1 in Hinit. unfold bind at 1 in Hinit.
  destruct (inherit_run P all_settings kw0 W0) as [t Hi].
  fold kw0 in Hinit. rewrite Hi, HP0 in Hinit. simpl environ in Hinit.
  destruct (inherit_outcome (__dict__ P w) (environ w) all_settings kw0)
    as [kw1|] eqn:Hio; [|done].
  unfold bind at 1 in Hinit.
  destruct (getattr_run c "_database" (set_trace t W0)) as [t1 Hg].
  rewrite Hg in Hinit. rewrite dict_set_trace in Hinit.
  rewrite (dict_valid _ _ _ Hc0) in Hinit.
  replace (lookup_attr D0 (environ (set_trace t W0)) "_database")
    with (Return (A:=value) db0) in Hinit
    by (unfold lookup_attr, D0; by rewrite lookup_insert_eq).
  fold db0.
  destruct (is_not_set db0 && is_not_set (dict_get "database_file" kw0 not_set))
    eqn:Eb.
  - unfold bind at 1 in Hinit. unfold bind at 1 in Hinit.
    destruct (database_run P (set_trace t1 (set_trace t W0))) as [t2 Hdb].
    rewrite Hdb in Hinit.
    set (Wd := set_trace t1 (set_trace t W0)) in *.
    destruct (database_outcome P Wd) as [[dbv|ex] Wo] eqn:Hout; [|done].
    simpl fst in Hinit. simpl snd in Hinit.
    destruct (database_outcome_frame P Wd) as (F1 & F2 & F3 & F4 & F5 & F6 & F7).
    rewrite Hout in F1, F2, F3, F4, F5, F6, F7. simpl in F1, F2, F3, F4, F5.
    assert (Hco : heap Wo !! c = Some D0).
    { rewrite F2 by lia. exact Hc0. }
    cbv beta iota in Hinit.
    rewrite (setattr_whitelisted_valid c _ _ D0) in Hinit; [|done|exact Hco].
    unfold ret at 1 in Hinit.
    apply (init_tail c kw1 _ (<["_database" := dbv]> D0)) in Hinit
      as (Df & (T1 & T2 & T3 & T4) & T5 & T6 & T7);
      [|simpl; apply list_lookup_insert_eq; by eapply lookup_lt_Some
       |by rewrite lookup_insert_ne].
    exists kw1, Wd, Wo, dbv, Df. split; [done|]. split; [by repeat split|].
    split; [done|]. simpl in T1, T2, T3, T4.
    rewrite list_insert_insert_eq in T1. split.
    { repeat split; try done. by eapply lookup_lt_Some. }
    split; [by rewrite T5, lookup_insert_eq|]. by split.
  - unfold bind at 1 in Hinit. unfold ret at 1 in Hinit.
    unfold ret at 1 in Hinit.
    set (Wd := set_trace t1 (set_trace t W0)) in *.
    apply (init_tail c kw1 Wd D0) in Hinit
      as (Df & (T1 & T2 & T3 & T4) & T5 & T6 & T7); [|done|done].
    exists kw1, Wd, Wd, db0, Df. split; [done|]. split; [by repeat split|].
    split; [done|]. split.
    { repeat split; try done. by eapply lookup_lt_Some. }
    split; [by rewrite T5; unfold D0; rewrite lookup_insert_eq|]. by split.
Qed.

Lemma dict_remove_NoDup k d :
  NoDup (map fst d) -> NoDup (map fst (dict_remove k d)).
Proof.
  unfold dict_remove. induction d as [|[k0 v0] d IH]; simpl; [done|].
  intros [Hnot Hnd]%NoDup_cons.
  destruct (negb (String.eqb k k0)); simpl; [|by apply IH].
  apply NoDup_cons. split; [|by apply IH].
  rewrite list_elem_of_In in *. intros Hin. apply Hnot.
  apply in_map_iff in Hin as (kv & Hk & Hin).
  apply filter_In in Hin as [Hin _].
  apply in_map_iff. eauto.
Qed.

Lemma is_not_set_true v : is_not_set v = true <-> v = not_set.
Proof. by destruct v. Qed.

(** C1. Let the child [c] be built by [settings(P, **kwargs)] from an
    existing parent [P], and let [X] be a registered option.  Without an
    override for [X] in [kwargs], [X] reads on the child as it read on the
    parent before the call.  With an override [given], it reads as the
    result of the option's validator on [given] when the option has one,
    and as [given] itself otherwise. *)
Theorem child_inherits_or_overrides P kwargs X w c w' :
  P < length (heap w) ->
  NoDup (map fst kwargs) ->
  in_all_settings X = true ->
  settings (Some P) kwargs w = (Return c, w') ->
  let given := dict_get X kwargs not_set in
  (given = not_set -> forall v, resolves P X w v -> resolves c X w' v)
  /\ (given <> not_set ->
      exists s, all_settings_get X = Some s
        /\ fst (getattr_ c X w')
           = match validator s with
             | Some f => f given
             | None => Return given
             end).
Proof.
  intros HP Hnd HX Hrun given.
  destruct (settings_child_spec P kwargs w c w' HP Hrun)
    as (-> & kw1 & Wd & Wo & dbv & Df & Hio & _ & _
        & (Hh & Hlt & _) & _ & _ & Hst).
  destruct (inherit_outcome_spec _ _ _ all_settings_NoDup _ _ Hio)
    as (I1 & _ & _ & I4).
  specialize (Hst (I4 (dict_remove_NoDup _ _ Hnd))).
  pose proof HX as HX'. unfold in_all_settings in HX'.
  destruct (all_settings_get X) as [s|] eqn:Es; [|done].
  destruct (all_settings_get_Some _ _ Es) as [Hname Hin].
  destruct (I1 s Hin) as [Hres Hkey]. rewrite Hname in Hres, Hkey.
  assert (Hread : getattr_ (length (heap w)) X w'
                  = (Return (dict_get X kw1 not_set), w')).
  { apply getattr_stored. unfold __dict__. rewrite Hh.
    rewrite list_lookup_insert_eq by done.
    apply Hst. by apply dict_get_In. }
  unfold resolution in Hres. rewrite Hname in Hres.
  destruct (registered_not_whitelisted X HX) as [_ Hdb].
  apply String.eqb_neq in Hdb.
  rewrite dict_get_remove in Hres by congruence. fold given in Hres.
  split.
  - intros Hg v Hv. rewrite Hg in Hres. simpl in Hres.
    apply resolves_lookup_attr in Hv. unfold resolves. rewrite Hread.
    simpl. congruence.
  - intros Hg. exists s. split; [done|]. rewrite Hread. simpl.
    destruct (is_not_set given) eqn:E; [by apply is_not_set_true in E|].
    by destruct (validator s).
Qed.

Lemma database_outcome_again P W v Wo W' :
  database_outcome P W = (Return v, Wo) ->
  __dict__ P W' = __dict__ P Wo ->
  environ W' = environ Wo ->
  _db_cache W' = _db_cache Wo ->
  fst (database_outcome P W') = Return v.
Proof.
  unfold database_outcome at 1.
  destruct (lookup_attr (__dict__ P W) _ "_database") as [d|] eqn:Ed; [|done].
  destruct (is_not_set d) eqn:Ens.
  2:{ intros [= <- <-] Hd He Hc. unfold database_outcome.
      by rewrite Hd, He, Ed, Ens. }
  destruct (lookup_attr (__dict__ P W) _ "database_file") as [f|] eqn:Ef;
    [|done].
  destruct (is_None f) eqn:En.
  - intros [= <- <-] Hd He Hc. unfold database_outcome. rewrite Hd.
    apply lookup_attr_database in Ed.
    apply dict_nonempty_valid, lookup_lt_Some in Ed.
    unfold __dict__ at 1. simpl. rewrite list_lookup_insert_eq by done.
    unfold lookup_attr. by rewrite lookup_insert_eq.
  - destruct (hashable f) eqn:Eh; [|done].
    destruct (cache_find f (_db_cache W)) as [u|] eqn:Ec.
    + intros [= <- <-] Hd He Hc. unfold database_outcome.
      by rewrite Hd, He, Hc, Ed, Ens, Ef, En, Eh, Ec.
    + destruct (cache_find f (cache_set _ _ _)) as [u|] eqn:Ec'; [|done].
      intros [= <- <-] Hd He Hc. unfold database_outcome.
      rewrite Hd, He, Hc. simpl.
      replace (__dict__ P _) with (__dict__ P W) by done.
      by rewrite Ed, Ens, Ef, En, Eh, Ec'.
Qed.

Lemma database_outcome_resolved P W v Wo :
  cache_wf W ->
  database_outcome P W = (Return v, Wo) ->
  v <> not_set
  /\ forall u, __dict__ P W !! "_database" = Some u -> u <> not_set -> v = u.
Proof.
  intros Hwf. pose proof (database_outcome_cache_wf P W Hwf) as Hwf'.
  revert Hwf'. unfold database_outcome.
  destruct (lookup_attr (__dict__ P W) _ "_database") as [d|] eqn:Ed; [|done].
  apply lookup_attr_database in Ed.
  destruct (is_not_set d) eqn:Ens.
  2:{ intros _ [= <- <-]. split.
      - intros ->. done.
      - intros u Hu _. congruence. }
  apply is_not_set_true in Ens as ->.
  assert (Hexp : forall u, __dict__ P W !! "_database" = Some u ->
                   u <> not_set -> v = u) by (intros u Hu; congruence).
  destruct (lookup_attr (__dict__ P W) _ "database_file") as [f|]; [|done].
  destruct (is_None f); [by intros _ [= <- <-]|].
  destruct (hashable f); [|done].
  destruct (cache_find f (_db_cache W)) as [u|] eqn:Ec.
  - intros _ [= <- <-]. split; [|done].
    by destruct (cache_wf_value _ _ _ Hwf Ec) as (i & -> & _).
  - destruct (cache_find f (cache_set _ _ _)) as [u|] eqn:Ec'; [|done].
    intros Hwf' [= <- <-]. split; [|done]. simpl in Hwf'.
    by destruct (cache_wf_value _ _ _ Hwf' Ec') as (i & -> & _).
Qed.

(** C7, as amended.  A child built from an existing inheritance source
    [P] with no [database] and no [database_file] override gets as its
    database override the value that reading [database] on [P] returns:
    an explicit override of [P], null included, is copied as it is, while
    an unresolved [P] yields a resolved child, never an unresolved one. *)
Theorem child_database_is_source_reading P kwargs w c w' :
  P < length (heap w) ->
  cache_wf w ->
  dict_get "database" kwargs not_set = not_set ->
  dict_get "database_file" kwargs not_set = not_set ->
  settings (Some P) kwargs w = (Return c, w') ->
  exists v,
    __dict__ c w' !! "_database" = Some v
    /\ v <> not_set
    /\ fst (database P w') = Return v
    /\ forall u, __dict__ P w !! "_database" = Some u -> u <> not_set -> v = u.
Proof.
  intros HP Hwf Hdb Hdf Hrun.
  destruct (settings_child_spec P kwargs w c w' HP Hrun)
    as (-> & kw1 & Wd & Wo & dbv & Df & _ & (Hd1 & Hd2 & Hd3 & Hd4) & Hstep
        & (Hh & Hlt & He & Hc & Hds) & Hv & _ & _).
  rewrite Hdb in Hstep.
  rewrite dict_get_remove in Hstep by done. rewrite Hdf in Hstep.
  simpl in Hstep.
  assert (Hwfd : cache_wf Wd).
  { unfold cache_wf. by rewrite Hd3, Hd4. }
  destruct (database_outcome_resolved P Wd dbv Wo Hwfd Hstep) as [Hns Hexp].
  exists dbv. split; [|split; [done|split]].
  - unfold __dict__. rewrite Hh. by rewrite list_lookup_insert_eq.
  - destruct (database_run P w') as [t ->]. simpl.
    eapply database_outcome_again; [exact Hstep| |done|done].
    unfold __dict__. rewrite Hh.
    rewrite list_lookup_insert_ne; [done|].
    pose proof (database_outcome_frame P Wd) as (F1 & _).
    rewrite Hstep in F1. simpl in F1. lia.
  - intros u Hu. apply Hexp. by rewrite Hd1.
Qed.

(** * Further properties of the code *)

(** ** Verbosity *)

(** X1. Between two verbosity levels exactly one of [<], [==], [>] holds,
    [<=] and [>=] are [<] or [==] and [>] or [==], [a < b] is [b > a],
    [!=] is the negation of [==], and equal levels hash alike. *)
Theorem Verbosity_comparisons_agree (a b : Verbosity) :
  let o := VerbosityV b in
  let eq := Verbosity___eq__ a o in
  exists lt gt,
    Verbosity___lt__ a o = Return lt
    /\ Verbosity___gt__ a o = Return gt
    /\ Verbosity___le__ a o = Return (lt || eq)
    /\ Verbosity___ge__ a o = Return (gt || eq)
    /\ Verbosity___gt__ b (VerbosityV a) = Return lt
    /\ Verbosity___ne__ a o = negb eq
    /\ (lt || eq || gt = true /\ lt && eq = false /\ lt && gt = false
        /\ eq && gt = false)
    /\ (eq = true -> Verbosity___hash__ a = Verbosity___hash__ b).
Proof.
  intros o eq. exists (level a <? level b)%Z, (level b <? level a)%Z.
  subst eq o. unfold Verbosity___ne__, Verbosity___eq__, Verbosity___hash__.
  simpl.
  destruct (Z.ltb_spec (level a) (level b)), (Z.ltb_spec (level b) (level a)),
    (Z.eqb_spec (level a) (level b)), (Z.leb_spec (level a) (level b)),
    (Z.leb_spec (level b) (level a)); simpl;
    repeat split; try reflexivity; try lia; intros; lia.
Qed.

(** X2. [Verbosity.by_name] answers with a member of [Verbosity.all]
    bearing the name asked for, and finds every member by its name; any
    other key raises [InvalidArgument]. *)
Theorem by_name_round_trip (key : string) :
  match by_name key with
  | Return v => In (VerbosityV v) Verbosity_all /\ Verbosity_name v = key
  | Raise e =>
      e = InvalidArgument "No such verbosity level"
      /\ forall v, In (VerbosityV v) Verbosity_all -> Verbosity_name v <> key
  end
  /\ forall v, In (VerbosityV v) Verbosity_all ->
       by_name (Verbosity_name v) = Return v.
Proof.
  split.
  - unfold by_name.
    destruct (String.eqb_spec key "quiet") as [->|H1]; [simpl; auto|].
    destruct (String.eqb_spec key "normal") as [->|H2]; [simpl; auto|].
    destruct (String.eqb_spec key "verbose") as [->|H3]; [simpl; auto|].
    destruct (String.eqb_spec key "debug") as [->|H4]; [simpl; auto 6|].
    split; [done|]. intros v Hin. simpl in Hin.
    destruct Hin as [[= <-]|[[= <-]|[[= <-]|[[= <-]|[]]]]]; simpl; congruence.
  - intros v Hin. simpl in Hin.
    destruct Hin as [[= <-]|[[= <-]|[[= <-]|[[= <-]|[]]]]]; reflexivity.
Qed.

(** ** Phases *)

(** X3. Whatever [_validate_phases] returns is a tuple of [Phase] members
    that it accepts again unchanged; [None] stands for all four phases. *)
Theorem _validate_phases_result (x t : value) :
  _validate_phases x = Return t ->
  (exists l, t = Tuple l /\ forallb is_Phase l = true)
  /\ _validate_phases t = Return t
  /\ (x = None_ -> t = tuple_Phase).
Proof.
  intros H.
  assert (Hl : exists l, t = Tuple l /\ forallb is_Phase l = true).
  { destruct x as [| |b|z|s|v|q|h|l|l|i|i]; simpl in H; try done.
    - injection H as <-. by eexists.
    - destruct (String.eqb s ""); [|done]. injection H as <-. by exists [].
    - destruct (forallb is_Phase l) eqn:E; [|done]. injection H as <-. eauto.
    - destruct (forallb is_Phase l) eqn:E; [|done]. injection H as <-. eauto. }
  split; [exact Hl|]. split.
  - destruct Hl as (l & -> & Hl). simpl. by rewrite Hl.
  - intros ->. simpl in H. congruence.
Qed.

(** ** Declaring settings *)






(** X4. Once [lock_further_definitions] has run, every [define_setting]
    raises [InvalidState] and leaves the registry as it was; locking again
    changes nothing. *)
Theorem define_setting_after_lock (s : Setting) (ss : list Setting)
    (r : Registry) :
  let r' := lock_further_definitions r in
  let e := InvalidState
             "settings have been locked and may no longer be defined." in
  define_setting s r' = (Some e, r')
  /\ define_settings (s :: ss) r' = (Some e, r')
  /\ lock_further_definitions r' = r'
  /\ defined r' = defined r.
Proof. by repeat split. Qed.



(** ** Reading options *)

(** X7. Reading a registered option on any [settings] object returns a
    value, the stored one if there is one and the declared default
    otherwise, and changes nothing but the record of default-function
    calls. *)
Theorem read_registered_option (o : nat) (n : string) (w : World) :
  in_all_settings n = true ->
  exists s v t,
    all_settings_get n = Some s
    /\ getattr_ o n w = (Return v, set_trace t w)
    /\ v = match __dict__ o w !! n with
           | Some u => u
           | None => match default s with
                     | Const d => d
                     | Function f => f (environ w)
                     end
           end.
Proof.
  unfold in_all_settings.
  destruct (all_settings_get n) as [s|] eqn:Es; [|done]. intros _.
  destruct (getattr_run o n w) as [t Hrun].
  unfold lookup_attr in Hrun. rewrite Es in Hrun.
  exists s. destruct (__dict__ o w !! n) as [u|].
  - by exists u, t.
  - destruct (default s) as [d|f]; by eexists _, t.
Qed.

(** ** Construction, in general *)

Lemma bind_Return {A B} (c : M A) (k : A -> M B) w b w' :
  bind c k w = (Return b, w') ->
  exists a w1, c w = (Return a, w1) /\ k a w1 = (Return b, w').
Proof.
  unfold bind. destruct (c w) as [[a|e] w1]; [|done]. eauto.
Qed.

Lemma pair_eq {A B} (a a' : A) (b b' : B) :
  (a, b) = (a', b') -> a = a' /\ b = b'.
Proof. by intros [= -> ->]. Qed.

Lemma preserves_bind {A B} (R : World -> World -> Prop) (m : M A)
    (k : A -> M B) :
  (forall x y z, R x y -> R y z -> R x z) ->
  preserves R m -> (forall a, preserves R (k a)) -> preserves R (bind m k).
Proof.
  intros Ht Hm Hk w. unfold bind. specialize (Hm w).
  destruct (m w) as [[a|e] w1]; simpl in *; [|done].
  eapply Ht; [exact Hm|apply Hk].
Qed.

Lemma keeps_bind {A B} (Q : World -> Prop) (m : M A) (k : A -> M B) :
  keeps Q m -> (forall a, keeps Q (k a)) -> keeps Q (bind m k).
Proof.
  intros Hm Hk w HQ. unfold bind. specialize (Hm w HQ).
  destruct (m w) as [[a|e] w1]; simpl in *; [|done]. by apply Hk.
Qed.

Lemma others_kept_refl c w : others_kept c w w.
Proof. intros o _. auto. Qed.

Lemma others_kept_trans c x y z :
  others_kept c x y -> others_kept c y z -> others_kept c x z.
Proof.
  intros H1 H2 o Ho. destruct (H1 o Ho) as [A1 B1], (H2 o Ho) as [A2 B2].
  split.
  - intros n Hn. by rewrite A2, A1.
  - destruct B1 as [E1|[E1 E1']], B2 as [E2|[E2 E2']].
    + left. congruence.
    + right. split; congruence.
    + right. split; congruence.
    + congruence.
Qed.

Lemma others_kept_same_heap c w w' : heap w' = heap w -> others_kept c w w'.
Proof. intros H o _. unfold __dict__. rewrite H. auto. Qed.

Lemma under_construction_same_heap c w w' :
  heap w' = heap w -> under_construction c w -> under_construction c w'.
Proof. unfold under_construction. by intros ->. Qed.

Lemma getattr_same_heap o n w : heap (snd (getattr_ o n w)) = heap w.
Proof. by destruct (getattr_run o n w) as [t ->]. Qed.

Lemma object_setattr_others c n v : preserves (others_kept c) (object___setattr__ c n v).
Proof.
  intros w o Ho. unfold object___setattr__, __dict__. simpl.
  rewrite list_lookup_insert_ne by done. auto.
Qed.

Lemma setattr_cases self n v w :
  __setattr__ self n v w = object___setattr__ self n v w
  \/ exists e t, __setattr__ self n v w = (Raise e, set_trace t w).
Proof.
  unfold __setattr__.
  destruct (str_in n _WHITELISTED_REAL_PROPERTIES); [by left|].
  destruct (String.eqb n "database").
  { right. unfold bind. destruct (getattr_run self "_construction_complete" w)
      as [t ->].
    destruct (lookup_attr _ _ _) as [c|e]; [|by eexists _, t].
    unfold assert. destruct (truthy c); by eexists _, t. }
  destruct (all_settings_get n) as [s|].
  2:{ right. exists (AttributeError ("No such setting " ++ n)), (trace w).
      unfold raise. by rewrite set_trace_id. }
  unfold bind. destruct (getattr_run self "_construction_complete" w)
    as [t Hrun]. rewrite Hrun.
  assert (Ht : set_trace t w = w).
  { revert Hrun. rewrite getattr_unfold.
    destruct (__dict__ self w !! "_construction_complete").
    - intros [= _ <-]. done.
    - unfold __getattr__. simpl. intros [= _ <-]. done. }
  rewrite Ht.
  destruct (lookup_attr _ _ _) as [c|e].
  2:{ right. exists e, (trace w). by rewrite set_trace_id. }
  destruct (truthy c).
  { right. eexists _, (trace w). unfold raise. by rewrite set_trace_id. }
  destruct (options s) as [opts|]; [|by left].
  destruct (negb (in_options v opts)); [|by left].
  right. eexists _, (trace w). unfold raise. by rewrite set_trace_id.
Qed.

Lemma setattr_others c n v : preserves (others_kept c) (__setattr__ c n v).
Proof.
  intros w. destruct (setattr_cases c n v w) as [->|(e & t & ->)].
  - apply object_setattr_others.
  - by apply others_kept_same_heap.
Qed.

Lemma store_others c items : preserves (others_kept c) (store c items).
Proof.
  induction items as [|[n v] items IH]; intros w; simpl.
  - apply others_kept_refl.
  - destruct (negb (in_all_settings n)); [apply others_kept_refl|].
    apply preserves_bind; [apply others_kept_trans|apply setattr_others|].
    intros _. exact IH.
Qed.

Lemma database_outcome_db P W :
  let Wo := snd (database_outcome P W) in
  __dict__ P Wo !! "_database" = __dict__ P W !! "_database"
  \/ (__dict__ P W !! "_database" = Some not_set
      /\ __dict__ P Wo !! "_database" = Some None_).
Proof.
  unfold database_outcome.
  destruct (lookup_attr _ _ "_database") as [d|] eqn:Ed; [|by left].
  destruct (is_not_set d) eqn:Ens; [|by left].
  apply is_not_set_true in Ens as ->.
  apply lookup_attr_database in Ed.
  destruct (lookup_attr _ _ "database_file") as [f|]; [|by left].
  destruct (is_None f).
  - right. split; [done|]. simpl.
    pose proof (dict_nonempty_valid _ _ _ _ Ed) as Hv.
    apply lookup_lt_Some in Hv.
    unfold __dict__ at 1. simpl. rewrite list_lookup_insert_eq by done.
    by rewrite lookup_insert_eq.
  - destruct (hashable f); [|by left].
    destruct (cache_find f (_db_cache W)); [by left|].
    destruct (cache_find f (cache_set _ _ _)); by left.
Qed.

Lemma database_others c d : preserves (others_kept c) (database d).
Proof.
  intros w. destruct (database_run d w) as [t ->]. simpl.
  destruct (database_outcome_frame d w) as (_ & F2 & F3 & _).
  pose proof (database_outcome_db d w) as F4.
  intros o Ho. destruct (decide (o = d)) as [->|Hne].
  - split; [intros n Hn; by apply F3|exact F4].
  - unfold __dict__. simpl. rewrite (F2 o Hne). auto.
Qed.

Lemma inherit_same_heap d ss kw w : heap (snd (inherit d ss kw w)) = heap w.
Proof. by destruct (inherit_run d ss kw w) as [t ->]. Qed.

Lemma settings_default_frame w :
  let w' := snd (settings_default w) in
  heap w' = heap w /\ locals w' = locals w
  /\ context_managers w' = context_managers w
  /\ _profiles w' = _profiles w /\ _db_cache w' = _db_cache w
  /\ databases w' = databases w /\ environ w' = environ w
  /\ trace w' = trace w.
Proof.
  unfold settings_default, bind, DynamicVariable_value, ret.
  destruct (default_variable w); [by repeat split|].
  destruct (_current_profile w) as [p|]; [|by repeat split].
  unfold load_profile, get_profile, _assign_default_internal,
    DynamicVariable_set_value, bind. simpl.
  destruct (_profiles w !! p); simpl; [|by repeat split].
  by repeat split.
Qed.

Lemma init_others c parent kwargs :
  preserves (others_kept c) (__init__ c parent kwargs).
Proof.
  assert (Ht := others_kept_trans c).
  unfold __init__.
  apply preserves_bind; [done|apply setattr_others|]. intros _.
  apply preserves_bind; [done|apply setattr_others|]. intros _.
  apply preserves_bind; [done| |].
  { destruct parent; [intros w; apply others_kept_refl|].
    intros w. apply others_kept_same_heap, settings_default_frame. }
  intros [d|].
  - apply preserves_bind; [done| |].
    + apply preserves_bind; [done| |].
      { intros w. apply others_kept_same_heap, inherit_same_heap. }
      intros kw1. apply preserves_bind; [done| |].
      { intros w. apply others_kept_same_heap, getattr_same_heap. }
      intros db. apply preserves_bind; [done| |].
      * destruct (_ && _); [|intros w; apply others_kept_refl].
        apply preserves_bind; [done|apply database_others|].
        intros v. apply setattr_others.
      * intros _ w. apply others_kept_refl.
    + intros kw1. apply preserves_bind; [done|apply store_others|]. intros _.
      apply preserves_bind; [done| |].
      { intros w. by apply others_kept_same_heap. }
      intros l. apply preserves_bind; [done|apply setattr_others|].
      intros _. apply setattr_others.
  - apply preserves_bind; [done|intros w; apply others_kept_refl|].
    intros kw1. apply preserves_bind; [done|apply store_others|]. intros _.
    apply preserves_bind; [done| |].
    { intros w. by apply others_kept_same_heap. }
    intros l. apply preserves_bind; [done|apply setattr_others|].
    intros _. apply setattr_others.
Qed.

(** X8. Constructing a snapshot, whatever the parent and the keyword
    arguments and whether or not it succeeds, changes no attribute of any
    snapshot that existed before, save one: an unresolved [_database] of
    the inheritance source may become [None]. *)
Theorem construction_leaves_other_snapshots parent kwargs w :
  let w' := snd (settings parent kwargs w) in
  forall o, o < length (heap w) ->
    (forall n, n <> "_database" -> __dict__ o w' !! n = __dict__ o w !! n)
    /\ (__dict__ o w' !! "_database" = __dict__ o w !! "_database"
        \/ (__dict__ o w !! "_database" = Some not_set
            /\ __dict__ o w' !! "_database" = Some None_)).
Proof.
  intros w' o Ho.
  assert (H : others_kept (length (heap w)) w w').
  { subst w'. unfold settings, bind at 1, new_settings.
    eapply others_kept_trans.
    2:{ apply (preserves_bind (others_kept (length (heap w))));
          [apply others_kept_trans|apply init_others|].
        intros _ u. apply others_kept_refl. }
    intros o' Ho'. unfold __dict__. simpl.
    destruct (decide (o' < length (heap w))) as [Hlt|Hge].
    - rewrite lookup_app_l by done. auto.
    - rewrite lookup_ge_None_2 by (rewrite length_app; simpl; lia).
      rewrite lookup_ge_None_2 by lia. auto. }
  apply H. lia.
Qed.

Lemma under_construction_setattr_database c v :
  keeps (under_construction c) (__setattr__ c "_database" v).
Proof.
  intros w (D & Hh & Hc & Hk).
  rewrite (setattr_whitelisted_valid c _ _ D) by done. simpl.
  exists (<["_database" := v]> D). split; [|split].
  - apply list_lookup_insert_eq. by eapply lookup_lt_Some.
  - by rewrite lookup_insert_ne.
  - intros k Hreg. rewrite lookup_insert_ne; [by apply Hk|].
    apply not_eq_sym. by apply registered_ne_whitelisted.
Qed.

Lemma under_construction_database c d :
  keeps (under_construction c) (database d).
Proof.
  intros w (D & Hh & Hc & Hk).
  destruct (database_run d w) as [t ->]. simpl.
  destruct (database_outcome_frame d w) as (F1 & F2 & F3 & _).
  destruct (decide (c = d)) as [<-|Hne].
  - assert (Hlt : c < length (heap (snd (database_outcome c w)))).
    { rewrite F1. by eapply lookup_lt_Some. }
    destruct (lookup_lt_is_Some_2 _ _ Hlt) as [D' HD'].
    exists D'. split; [exact HD'|].
    pose proof (dict_valid _ _ _ HD') as E'.
    pose proof (dict_valid _ _ _ Hh) as E.
    split.
    + rewrite <- E', F3 by done. by rewrite E.
    + intros k Hreg. rewrite <- E', F3.
      * rewrite E. by apply Hk.
      * by apply registered_ne_whitelisted.
  - exists D. split; [|auto]. simpl. by rewrite (F2 c Hne).
Qed.

Lemma init_before_store c parent kwargs W0 w' :
  heap W0 !! c = Some ∅ ->
  __init__ c parent kwargs W0 = (Return tt, w') ->
  let kw0 := dict_remove "database" kwargs in
  exists defaults kw1 W1,
    (forall p, parent = Some p -> defaults = Some p)
    /\ (forall d, parent = None -> default_variable W0 = Some d ->
          defaults = Some d)
    /\ match defaults with
       | Some d =>
           exists D e, inherit_outcome D e all_settings kw0 = Return kw1
       | None => kw1 = kw0
       end
    /\ under_construction c W1
    /\ init_tail_code c kw1 W1 = (Return tt, w').
Proof.
  intros H0 Hrun kw0. unfold __init__ in Hrun.
  apply bind_Return in Hrun as ([] & Wa & Ha & Hrun).
  rewrite (setattr_whitelisted_valid c _ _ ∅) in Ha by done.
  injection Ha as <-.
  set (Wa := set_heap _ W0) in Hrun.
  assert (Hua : under_construction c Wa).
  { exists (<["_construction_complete" := Bool false]> ∅).
    split; [|split].
    - simpl. apply list_lookup_insert_eq. by eapply lookup_lt_Some.
    - by rewrite lookup_insert_eq.
    - intros k Hreg. rewrite lookup_insert_ne; [done|].
      apply not_eq_sym. by apply registered_ne_whitelisted. }
  apply bind_Return in Hrun as ([] & Wb & Hb & Hrun).
  assert (Hub : under_construction c Wb).
  { pose proof (under_construction_setattr_database c
                  (dict_get "database" kwargs not_set) Wa Hua) as H.
    by rewrite Hb in H. }
  assert (Hdb : default_variable Wb = default_variable W0).
  { destruct Hua as (D & HD & _).
    rewrite (setattr_whitelisted_valid c _ _ D) in Hb by done.
    by injection Hb as <-. }
  apply bind_Return in Hrun as (defaults & Wc & Hc & Hrun).
  assert (Huc : under_construction c Wc
                /\ (forall p, parent = Some p -> defaults = Some p)
                /\ (forall d, parent = None -> default_variable W0 = Some d ->
                      defaults = Some d)).
  { destruct parent as [p|].
    - injection Hc as <- <-. split; [done|]. split; [|done].
      by intros q [= ->].
    - split; [|split; [done|]].
      + pose proof (settings_default_frame Wb) as (Hh & _).
        rewrite Hc in Hh. by apply (under_construction_same_heap c Wb).
      + intros d _ Hd. rewrite <- Hdb in Hd.
        rewrite (settings_default_Some _ _ Hd) in Hc. by injection Hc as <-. }
  destruct Huc as (Huc & Hp & Hd).
  apply bind_Return in Hrun as (kw1 & Wd & Hkw & Hrun).
  exists defaults, kw1, Wd. split; [done|]. split; [done|].
  destruct defaults as [d|].
  - apply bind_Return in Hkw as (kwi & We & Hin & Hkw).
    apply bind_Return in Hkw as (db & Wf & Hget & Hkw).
    apply bind_Return in Hkw as ([] & Wg & Hif & Hkw).
    injection Hkw as <- <-.
    destruct (inherit_run d all_settings kw0 Wc) as [t Hir].
    fold kw0 in Hin. rewrite Hir in Hin.
    apply pair_eq in Hin as [Hio <-].
    split; [eauto|]. split; [|exact Hrun].
    assert (Huf : under_construction c Wf).
    { pose proof (getattr_same_heap c "_database" (set_trace t Wc)) as Hh.
      rewrite Hget in Hh.
      apply (under_construction_same_heap c (set_trace t Wc)); done. }
    destruct (_ && _).
    + apply bind_Return in Hif as (v & Wh & Hdbr & Hset).
      pose proof (under_construction_database c d Wf Huf) as Hh.
      rewrite Hdbr in Hh.
      pose proof (under_construction_setattr_database c v Wh Hh) as Hg.
      by rewrite Hset in Hg.
    + by injection Hif as <-.
  - injection Hkw as <- <-. split; [done|]. split; [done|exact Hrun].
Qed.

Lemma setattr_option_checked self n v w w' s opts :
  in_all_settings n = true ->
  __setattr__ self n v w = (Return tt, w') ->
  all_settings_get n = Some s -> options s = Some opts ->
  in_options v opts = true.
Proof.
  intros Hn Hrun Hs Ho. unfold __setattr__ in Hrun.
  destruct (registered_not_whitelisted n Hn) as [E1 E2].
  rewrite E1, E2, Hs in Hrun.
  apply bind_Return in Hrun as (c & w1 & _ & Hrun).
  destruct (truthy c); [done|]. rewrite Ho in Hrun.
  by destruct (in_options v opts).
Qed.

Lemma store_spec_full c items :
  forall W W' D,
    store c items W = (Return tt, W') ->
    heap W !! c = Some D ->
    D !! "_construction_complete" = Some (Bool false) ->
    exists D',
      W' = set_heap (<[c := D']> (heap W)) W
      /\ D' !! "_construction_complete" = Some (Bool false)
      /\ (forall k, ~ In k (map fst items) -> D' !! k = D !! k)
      /\ (forall k v, In (k, v) items ->
            in_all_settings k = true
            /\ (forall s opts, all_settings_get k = Some s ->
                  options s = Some opts -> in_options v opts = true))
      /\ (forall k, In k (map fst items) ->
            exists v, In (k, v) items /\ D' !! k = Some v).
Proof.
  induction items as [|[n v] items IH]; intros W W' D Hrun Hv Hc.
  - simpl in Hrun. injection Hrun as <-. exists D.
    rewrite (list_insert_id _ _ _ Hv). split; [by destruct W|].
    by repeat split.
  - simpl in Hrun.
    destruct (in_all_settings n) eqn:Hn; [|done]. simpl in Hrun.
    apply bind_Return in Hrun as ([] & W1 & Hset & Hrun).
    assert (Hchk : forall s opts, all_settings_get n = Some s ->
              options s = Some opts -> in_options v opts = true).
    { intros s opts. by apply (setattr_option_checked c n v W W1). }
    apply (setattr_option_under_construction _ _ _ _ D) in Hset; try done.
    assert (Hlt : c < length (heap W)) by by eapply lookup_lt_Some.
    destruct (IH W1 W' (<[n := v]> D) Hrun) as (D' & -> & Hcc & I1 & I2 & I3).
    { subst W1. simpl. by rewrite list_lookup_insert_eq. }
    { rewrite lookup_insert_ne; [done|].
      by apply registered_ne_whitelisted. }
    exists D'. subst W1. simpl. rewrite list_insert_insert_eq.
    split; [done|]. split; [done|]. split; [|split].
    + intros k Hk. simpl in Hk. rewrite I1 by tauto.
      rewrite lookup_insert_ne; [done|]. tauto.
    + intros k u [[= <- <-]|Hin]; [|by apply I2]. split; [done|].
      intros s opts. apply Hchk.
    + intros k Hk.
      destruct (in_dec string_dec k (map fst items)) as [Hin|Hnin].
      * destruct (I3 k Hin) as (u & Hu & HD). exists u. split; [by right|done].
      * simpl in Hk. destruct Hk as [<-|Hk]; [|done].
        exists v. split; [by left|].
        rewrite I1 by done. by rewrite lookup_insert_eq.
Qed.

Lemma init_tail_full c kw1 W1 w' :
  under_construction c W1 ->
  init_tail_code c kw1 W1 = (Return tt, w') ->
  exists Df,
    w' = set_heap (<[c := Df]> (heap W1)) (set_locals (locals W1 ++ [None]) W1)
    /\ c < length (heap W1)
    /\ Df !! "_construction_complete" = Some (Bool true)
    /\ Df !! "storage" = Some (threading_local (length (locals W1)))
    /\ (forall k v, In (k, v) kw1 ->
          in_all_settings k = true
          /\ (forall s opts, all_settings_get k = Some s ->
                options s = Some opts -> in_options v opts = true))
    /\ (forall k, in_all_settings k = true ->
          match Df !! k with
          | Some v => In (k, v) kw1
          | None => ~ In k (map fst kw1)
          end).
Proof.
  intros (D1 & Hh & Hcc & Hnone) Hrun. unfold init_tail_code in Hrun.
  apply bind_Return in Hrun as ([] & W2 & Hst & Hrun).
  destruct (store_spec_full c kw1 W1 W2 D1 Hst Hh Hcc)
    as (D' & -> & _ & S1 & S2 & S3).
  assert (Hlt : c < length (heap W1)) by by eapply lookup_lt_Some.
  unfold bind at 1, new_threading_local at 1 in Hrun.
  unfold bind at 1 in Hrun.
  rewrite (setattr_whitelisted_valid c _ _ D') in Hrun;
    [|done|simpl; by apply list_lookup_insert_eq].
  rewrite (setattr_whitelisted_valid c _ _
             (<["storage" := threading_local (length (locals W1))]> D'))
    in Hrun; [|done|simpl; apply list_lookup_insert_eq; by rewrite length_insert].
  injection Hrun as <-. simpl.
  eexists. split; [|split; [done|split; [|split; [|split]]]].
  - rewrite !list_insert_insert_eq. reflexivity.
  - by rewrite lookup_insert_eq.
  - rewrite lookup_insert_ne by done. by rewrite lookup_insert_eq.
  - exact S2.
  - intros k Hreg.
    assert (k <> "_construction_complete" /\ k <> "storage") as [? ?]
      by (split; by apply registered_ne_whitelisted).
    rewrite !lookup_insert_ne by done.
    destruct (in_dec string_dec k (map fst kw1)) as [Hin|Hnin].
    + destruct (S3 k Hin) as (v & Hv & ->). done.
    + rewrite S1 by done. rewrite Hnone by done. done.
Qed.

Lemma settings_run parent kwargs w c w' :
  settings parent kwargs w = (Return c, w') ->
  c = length (heap w)
  /\ exists W0, heap W0 !! c = Some ∅
       /\ default_variable W0 = default_variable w
       /\ __init__ c parent kwargs W0 = (Return tt, w').
Proof.
  intros Hrun. unfold settings in Hrun.
  apply bind_Return in Hrun as (self & W0 & Hnew & Hrun).
  injection Hnew as <- <-.
  apply bind_Return in Hrun as ([] & W1 & Hinit & Hret).
  injection Hret as <- <-. split; [done|].
  eexists. split; [|split; [|exact Hinit]].
  - simpl. by apply list_lookup_middle.
  - done.
Qed.

Lemma dict_remove_keys k k' d :
  k' <> k -> In k' (map fst d) -> In k' (map fst (dict_remove k d)).
Proof.
  intros Hne Hin. apply in_map_iff in Hin as ([k0 v0] & Hk & Hin).
  simpl in Hk. subst k0. apply in_map_iff. exists (k', v0). split; [done|].
  unfold dict_remove. apply filter_In. split; [done|]. simpl.
  apply negb_true_iff, String.eqb_neq. congruence.
Qed.

Lemma dict_get_given k d v :
  dict_get k d not_set = v -> v <> not_set -> In (k, v) d.
Proof.
  intros Hget Hv. rewrite <- Hget. apply dict_get_In.
  unfold dict_get in Hget.
  destruct (find _ d) as [[k0 v0]|] eqn:Ef; [|congruence].
  apply find_some in Ef as [Hin Hk]. simpl in Hk.
  apply String.eqb_eq in Hk as ->. by apply (in_map fst) in Hin.
Qed.

Lemma init_items parent kwargs w c w' :
  settings parent kwargs w = (Return c, w') ->
  exists defaults kw1 Df,
    (forall p, parent = Some p -> defaults = Some p)
    /\ (forall d, parent = None -> default_variable w = Some d ->
          defaults = Some d)
    /\ match defaults with
       | Some d =>
           exists D e,
             inherit_outcome D e all_settings
               (dict_remove "database" kwargs) = Return kw1
       | None => kw1 = dict_remove "database" kwargs
       end
    /\ __dict__ c w' = Df
    /\ Df !! "_construction_complete" = Some (Bool true)
    /\ (exists i, Df !! "storage" = Some (threading_local i)
                  /\ locals w' !! i = Some None)
    /\ (forall k v, In (k, v) kw1 ->
          in_all_settings k = true
          /\ (forall s opts, all_settings_get k = Some s ->
                options s = Some opts -> in_options v opts = true))
    /\ (forall k, in_all_settings k = true ->
          match Df !! k with
          | Some v => In (k, v) kw1
          | None => ~ In k (map fst kw1)
          end).
Proof.
  intros Hrun.
  destruct (settings_run _ _ _ _ _ Hrun) as (-> & W0 & H0 & Hdv & Hinit).
  destruct (init_before_store _ _ _ _ _ H0 Hinit)
    as (defaults & kw1 & W1 & Hp & Hd & Hkw & Hu & Htail).
  destruct (init_tail_full _ _ _ _ Hu Htail)
    as (Df & -> & Hlt & Hcc & Hst & Hchk & Hall).
  exists defaults, kw1, Df. split; [done|]. split.
  { intros d Hn Hw. apply Hd; [done|]. by rewrite Hdv. }
  split; [done|]. split.
  { unfold __dict__. simpl. by rewrite list_lookup_insert_eq. }
  split; [done|]. split; [|by split].
  exists (length (locals W1)). split; [done|]. simpl.
  by apply list_lookup_middle.
Qed.

(** X9. A keyword argument that is neither [database] nor the name of a
    registered option makes the construction fail: [settings(...)] never
    returns a snapshot, whatever the parent and the state. *)
Theorem construction_rejects_unknown_keyword parent kwargs k w :
  In k (map fst kwargs) ->
  k <> "database" ->
  in_all_settings k = false ->
  forall c w', settings parent kwargs w <> (Return c, w').
Proof.
  intros Hin Hdb Hreg c w' Hrun.
  destruct (init_items _ _ _ _ _ Hrun)
    as (defaults & kw1 & Df & _ & _ & Hkw & _ & _ & _ & Hchk & _).
  assert (Hk0 : In k (map fst (dict_remove "database" kwargs)))
    by by apply dict_remove_keys.
  assert (Hk1 : In k (map fst kw1)).
  { destruct defaults as [d|]; [|by subst kw1].
    destruct Hkw as (D & e & Hio).
    destruct (inherit_outcome_spec _ _ _ all_settings_NoDup _ _ Hio)
      as (_ & _ & Hmono & _). by apply Hmono. }
  apply in_map_iff in Hk1 as ([k' v] & Hk' & Hkv). simpl in Hk'. subst k'.
  destruct (Hchk k v Hkv) as [Hr _]. congruence.
Qed.

(** X10. An override outside the allowed values of its option (an option
    without validator, as [verbosity] is) makes the construction fail,
    whatever the parent and the state. *)
Theorem construction_rejects_disallowed_value parent kwargs X s opts w :
  all_settings_get X = Some s ->
  options s = Some opts ->
  validator s = None ->
  dict_get X kwargs not_set <> not_set ->
  in_options (dict_get X kwargs not_set) opts = false ->
  forall c w', settings parent kwargs w <> (Return c, w').
Proof.
  intros Hs Ho Hv Hgiven Hbad c w' Hrun.
  destruct (init_items _ _ _ _ _ Hrun)
    as (defaults & kw1 & Df & _ & _ & Hkw & _ & _ & _ & Hchk & _).
  destruct (all_settings_get_Some _ _ Hs) as [Hname Hin].
  assert (HX : in_all_settings X = true)
    by (unfold in_all_settings; by rewrite Hs).
  destruct (registered_not_whitelisted X HX) as [_ Hdb].
  apply String.eqb_neq in Hdb.
  set (given := dict_get X kwargs not_set) in *.
  assert (Hg0 : dict_get X (dict_remove "database" kwargs) not_set = given).
  { apply dict_get_remove. congruence. }
  assert (Hitem : In (X, given) kw1).
  { destruct defaults as [d|].
    - destruct Hkw as (D & e & Hio).
      destruct (inherit_outcome_spec _ _ _ all_settings_NoDup _ _ Hio)
        as (I1 & _).
      destruct (I1 s Hin) as [Hres Hkey]. rewrite Hname in Hres, Hkey.
      unfold resolution in Hres. rewrite Hname, Hg0, Hv in Hres.
      destruct (is_not_set given) eqn:E; [by apply is_not_set_true in E|].
      injection Hres as Hres. rewrite Hres. by apply dict_get_In.
    - subst kw1. by apply dict_get_given. }
  destruct (Hchk X given Hitem) as [_ Hc].
  rewrite (Hc s opts Hs Ho) in Hbad. done.
Qed.

(** X11. When there is an inheritance source (a parent, or a default in
    the cell), an override that the option's validator refuses makes the
    construction fail. *)
Theorem construction_rejects_invalid_override parent kwargs X s f e w :
  parent <> None \/ default_variable w <> None ->
  all_settings_get X = Some s ->
  validator s = Some f ->
  dict_get X kwargs not_set <> not_set ->
  f (dict_get X kwargs not_set) = Raise e ->
  forall c w', settings parent kwargs w <> (Return c, w').
Proof.
  intros Hsrc Hs Hv Hgiven Hbad c w' Hrun.
  destruct (init_items _ _ _ _ _ Hrun)
    as (defaults & kw1 & Df & Hp & Hd & Hkw & _).
  destruct (all_settings_get_Some _ _ Hs) as [Hname Hin].
  assert (HX : in_all_settings X = true)
    by (unfold in_all_settings; by rewrite Hs).
  destruct (registered_not_whitelisted X HX) as [_ Hdb].
  apply String.eqb_neq in Hdb.
  assert (Hdef : exists d, defaults = Some d).
  { destruct parent as [p|]; [exists p; by apply Hp|].
    destruct Hsrc as [?|Hw]; [done|].
    destruct (default_variable w) as [d|] eqn:Ed; [|done].
    exists d. by apply Hd. }
  destruct Hdef as [d ->]. destruct Hkw as (D & env & Hio).
  destruct (inherit_outcome_spec _ _ _ all_settings_NoDup _ _ Hio) as (I1 & _).
  destruct (I1 s Hin) as [Hres _].
  unfold resolution in Hres. rewrite Hname, Hv in Hres.
  rewrite dict_get_remove in Hres by congruence.
  destruct (is_not_set _) eqn:E; [by apply is_not_set_true in E|].
  congruence.
Qed.

(** X12. In every snapshot that a construction returns, an option that
    declares allowed values is stored with one of them. *)
Theorem stored_options_are_allowed parent kwargs w c w' X s opts v :
  settings parent kwargs w = (Return c, w') ->
  all_settings_get X = Some s ->
  options s = Some opts ->
  __dict__ c w' !! X = Some v ->
  in_options v opts = true.
Proof.
  intros Hrun Hs Ho Hv.
  destruct (init_items _ _ _ _ _ Hrun)
    as (defaults & kw1 & Df & _ & _ & _ & HDf & _ & _ & Hchk & Hall).
  assert (HX : in_all_settings X = true)
    by (unfold in_all_settings; by rewrite Hs).
  specialize (Hall X HX). rewrite HDf in Hv. rewrite Hv in Hall.
  destruct (Hchk X v Hall) as [_ Hc]. by apply (Hc s opts).
Qed.

(** X13. A snapshot constructed from an inheritance source (a parent, or
    a default in the cell) stores every registered option, so that reading
    one returns the stored value, calls no default function and changes
    nothing. *)
Theorem derived_snapshot_stores_every_option parent kwargs w c w' X :
  parent <> None \/ default_variable w <> None ->
  settings parent kwargs w = (Return c, w') ->
  in_all_settings X = true ->
  exists v, __dict__ c w' !! X = Some v
            /\ getattr_ c X w' = (Return v, w').
Proof.
  intros Hsrc Hrun HX.
  destruct (init_items _ _ _ _ _ Hrun)
    as (defaults & kw1 & Df & Hp & Hd & Hkw & HDf & _ & _ & _ & Hall).
  assert (Hdef : exists d, defaults = Some d).
  { destruct parent as [p|]; [exists p; by apply Hp|].
    destruct Hsrc as [?|Hw]; [done|].
    destruct (default_variable w) as [d|] eqn:Ed; [|done].
    exists d. by apply Hd. }
  destruct Hdef as [d ->]. destruct Hkw as (D & env & Hio).
  destruct (inherit_outcome_spec _ _ _ all_settings_NoDup _ _ Hio) as (I1 & _).
  pose proof HX as HX'. unfold in_all_settings in HX'.
  destruct (all_settings_get X) as [s|] eqn:Es; [|done].
  destruct (all_settings_get_Some _ _ Es) as [Hname Hin].
  destruct (I1 s Hin) as [_ Hkey]. rewrite Hname in Hkey.
  specialize (Hall X HX). rewrite <- HDf in Hall.
  destruct (__dict__ c w' !! X) as [v|] eqn:Ev; [|done].
  exists v. split; [done|]. by apply getattr_stored.
Qed.

(** X14. A snapshot that a construction returns is a new reference, its
    construction is complete, and its [storage] is a live namespace with
    no scope stack yet, so that it can be entered. *)
Theorem constructed_snapshot_is_complete parent kwargs w c w' :
  settings parent kwargs w = (Return c, w') ->
  c = length (heap w)
  /\ construction_complete c w'
  /\ scope_ready c w'
  /\ exists i, __dict__ c w' !! "storage" = Some (threading_local i)
               /\ locals w' !! i = Some None
               /\ stack i w' = [].
Proof.
  intros Hrun.
  destruct (settings_run _ _ _ _ _ Hrun) as (Hc & _).
  destruct (init_items _ _ _ _ _ Hrun)
    as (defaults & kw1 & Df & _ & _ & _ & HDf & Hcc & (i & Hst & Hloc) & _).
  split; [done|]. split; [unfold construction_complete; by rewrite HDf|].
  split.
  - exists i. rewrite HDf. split; [done|]. by eapply lookup_lt_Some.
  - exists i. rewrite HDf. split; [done|]. split; [done|].
    unfold stack. by rewrite Hloc.
Qed.

(** ** The database property, case by case *)

Lemma is_not_set_false v : v <> not_set -> is_not_set v = false.
Proof. by destruct v. Qed.

Lemma database_explicit s d w :
  __dict__ s w !! "_database" = Some d ->
  d <> not_set ->
  database s w = (Return d, w).
Proof.
  intros Hd Hns. unfold database, bind.
  rewrite (getattr_stored _ _ _ _ Hd), (is_not_set_false _ Hns).
  unfold ret. cbv beta iota.
  rewrite (getattr_stored _ _ _ _ Hd), (is_not_set_false _ Hns).
  by rewrite (getattr_stored _ _ _ _ Hd).
Qed.

(** X15. A snapshot with an explicit database, [None] included, reads
    [database] as that value, as often as it is read; nothing is created,
    cached or changed. *)
Theorem database_explicit_override s d w :
  __dict__ s w !! "_database" = Some d ->
  d <> not_set ->
  database s w = (Return d, w)
  /\ (database s ;; database s) w = (Return d, w).
Proof.
  intros Hd Hns. pose proof (database_explicit s d w Hd Hns) as H.
  split; [done|]. unfold bind. by rewrite H.
Qed.

Lemma database_outcome_unresolved s w f :
  __dict__ s w !! "_database" = Some not_set ->
  resolves s "database_file" w f ->
  database_outcome s w =
    if is_None f then
      (Return None_,
       set_heap (<[s := <["_database" := None_]> (__dict__ s w)]> (heap w)) w)
    else if hashable f then
      match cache_find f (_db_cache w) with
      | Some v => (Return v, w)
      | None =>
          let c' := cache_set f (ExampleDatabase (length (databases w)))
                      (_db_cache w) in
          let w' := set__db_cache c' (set_databases (databases w ++ [f]) w) in
          match cache_find f c' with
          | Some v => (Return v, w')
          | None => (Raise KeyError, w')
          end
      end
    else (Raise (TypeError "unhashable type"), w).
Proof.
  intros Hd Hf. apply resolves_lookup_attr in Hf. unfold database_outcome.
  assert (lookup_attr (__dict__ s w) (environ w) "_database" = Return not_set)
    as -> by (unfold lookup_attr; by rewrite Hd).
  by rewrite Hf.
Qed.

(** X16. A snapshot without explicit database whose [database_file] is
    [None] reads [database] as [None] and records that [None] as its
    database; no database object is created and the cache is untouched. *)
Theorem database_without_file s w :
  __dict__ s w !! "_database" = Some not_set ->
  resolves s "database_file" w None_ ->
  exists w',
    database s w = (Return None_, w')
    /\ __dict__ s w' !! "_database" = Some None_
    /\ (forall n, n <> "_database" -> __dict__ s w' !! n = __dict__ s w !! n)
    /\ databases w' = databases w
    /\ _db_cache w' = _db_cache w.
Proof.
  intros Hd Hf. destruct (database_run s w) as [t Hrun].
  rewrite (database_outcome_unresolved s w None_ Hd Hf) in Hrun.
  simpl in Hrun. eexists. split; [exact Hrun|].
  pose proof (dict_nonempty_valid _ _ _ _ Hd) as Hv.
  apply lookup_lt_Some in Hv.
  assert (HD : __dict__ s
                 (set_trace t
                    (set_heap (<[s:=<["_database":=None_]> (__dict__ s w)]>
                                 (heap w)) w))
               = <["_database":=None_]> (__dict__ s w)).
  { unfold __dict__ at 1. simpl. by rewrite list_lookup_insert_eq. }
  rewrite HD. split; [by rewrite lookup_insert_eq|].
  split; [|done]. intros n Hn. by rewrite lookup_insert_ne.
Qed.

(** X17. A snapshot without explicit database whose [database_file] is
    unhashable (a list) fails to read [database] with [TypeError]; no
    database object is created and nothing but the record of
    default-function calls changes. *)
Theorem database_unhashable_file s f w :
  __dict__ s w !! "_database" = Some not_set ->
  resolves s "database_file" w f ->
  hashable f = false ->
  exists t, database s w = (Raise (TypeError "unhashable type"), set_trace t w).
Proof.
  intros Hd Hf Hh. destruct (database_run s w) as [t Hrun].
  rewrite (database_outcome_unresolved s w f Hd Hf) in Hrun.
  rewrite Hh in Hrun.
  destruct (is_None f) eqn:En; [by destruct f|].
  simpl in Hrun. by exists t.
Qed.

(** X18. Reading [database] never drops or replaces a cache entry or a
    database object: at most one object is created, and it is then the
    one entry added to the cache. *)
Theorem database_never_evicts s w :
  let w' := snd (database s w) in
  exists ext ext',
    _db_cache w' = (_db_cache w ++ ext)%list
    /\ databases w' = (databases w ++ ext')%list
    /\ length ext <= 1
    /\ length ext' = length ext.
Proof.
  intros w'. subst w'. destruct (database_run s w) as [t ->]. simpl.
  assert (Hsame : exists ext ext' : list _,
             _db_cache w = (_db_cache w ++ ext)%list
             /\ databases w = (databases w ++ ext')%list
             /\ length ext <= 1 /\ length ext' = length ext).
  { exists nil, nil. rewrite !app_nil_r. simpl. auto. }
  unfold database_outcome.
  destruct (lookup_attr _ _ "_database") as [d|]; [|done].
  destruct (is_not_set d); [|done].
  destruct (lookup_attr _ _ "database_file") as [f|]; [|done].
  destruct (is_None f); [done|].
  destruct (hashable f); [|done].
  destruct (cache_find f (_db_cache w)) as [v|] eqn:Ec; [done|].
  rewrite (cache_find_None_set _ _ _ Ec).
  destruct (cache_find f (_ ++ _)); simpl;
    eexists [_], [_]; simpl; auto.
Qed.

Lemma database_outcome_fix P W v Wo t :
  database_outcome P W = (Return v, Wo) ->
  database_outcome P (set_trace t Wo) = (Return v, set_trace t Wo).
Proof.
  unfold database_outcome at 1.
  destruct (lookup_attr (__dict__ P W) _ "_database") as [d|] eqn:Ed; [|done].
  destruct (is_not_set d) eqn:Ens.
  2:{ intros [= <- <-]. unfold database_outcome.
      rewrite dict_set_trace. simpl environ. by rewrite Ed, Ens. }
  destruct (lookup_attr (__dict__ P W) _ "database_file") as [f|] eqn:Ef;
    [|done].
  destruct (is_None f) eqn:En.
  - intros [= <- <-]. unfold database_outcome.
    apply lookup_attr_database in Ed.
    apply dict_nonempty_valid, lookup_lt_Some in Ed.
    rewrite dict_set_trace. unfold __dict__ at 1. simpl heap.
    rewrite list_lookup_insert_eq by done.
    unfold lookup_attr at 1. by rewrite lookup_insert_eq.
  - destruct (hashable f) eqn:Eh; [|done].
    destruct (cache_find f (_db_cache W)) as [u|] eqn:Ec.
    + intros [= <- <-]. unfold database_outcome.
      rewrite dict_set_trace. simpl environ. simpl _db_cache.
      by rewrite Ed, Ens, Ef, En, Eh, Ec.
    + destruct (cache_find f (cache_set _ _ _)) as [u|] eqn:Ec'; [|done].
      intros [= <- <-]. unfold database_outcome.
      rewrite dict_set_trace. simpl environ. simpl _db_cache.
      replace (__dict__ P _) with (__dict__ P W) by done.
      by rewrite Ed, Ens, Ef, En, Eh, Ec'.
Qed.

(** X19. Once a read of [database] on a snapshot has returned a value,
    reading it again on that snapshot returns the same value and changes
    nothing but the record of default-function calls: no second object is
    ever created. *)
Theorem database_read_is_stable s v w w1 :
  database s w = (Return v, w1) ->
  exists t, database s w1 = (Return v, set_trace t w1).
Proof.
  intros Hrun. destruct (database_run s w) as [t Hr]. rewrite Hr in Hrun.
  apply pair_eq in Hrun as [Hv <-].
  destruct (database_outcome s w) as [r Wo] eqn:Ho. simpl in Hv. subst r.
  cbn [fst snd]. clear Hr.
  destruct (database_run s (set_trace t Wo)) as [t' ->].
  rewrite (database_outcome_fix _ _ _ _ t Ho). simpl. by exists t'.
Qed.

(** ** Construction and the database *)

(** X20. A child given an explicit [database], [None] included, keeps it
    as its database whatever the parent holds, and the construction
    creates no database object and leaves the cache alone. *)
Theorem explicit_database_is_kept P kwargs w c w' :
  P < length (heap w) ->
  dict_get "database" kwargs not_set <> not_set ->
  settings (Some P) kwargs w = (Return c, w') ->
  database c w' = (Return (dict_get "database" kwargs not_set), w')
  /\ databases w' = databases w
  /\ _db_cache w' = _db_cache w.
Proof.
  intros HP Hg Hrun.
  destruct (settings_child_spec P kwargs w c w' HP Hrun)
    as (-> & kw1 & Wd & Wo & dbv & Df & _ & (_ & _ & Hd3 & Hd4) & Hstep
        & (Hh & Hlt & _ & Hc & Hds) & Hv & _ & _).
  rewrite (is_not_set_false _ Hg) in Hstep. simpl in Hstep.
  destruct Hstep as [-> ->].
  split; [|split; congruence].
  apply database_explicit; [|done].
  unfold __dict__. rewrite Hh. by rewrite list_lookup_insert_eq.
Qed.

(** X21. A child given a [database_file] but no [database] is left
    unresolved: the construction reads no database, creates none and
    leaves the cache alone. *)
Theorem database_file_override_stays_lazy P kwargs w c w' :
  P < length (heap w) ->
  dict_get "database" kwargs not_set = not_set ->
  dict_get "database_file" kwargs not_set <> not_set ->
  settings (Some P) kwargs w = (Return c, w') ->
  __dict__ c w' !! "_database" = Some not_set
  /\ databases w' = databases w
  /\ _db_cache w' = _db_cache w.
Proof.
  intros HP Hdb Hf Hrun.
  destruct (settings_child_spec P kwargs w c w' HP Hrun)
    as (-> & kw1 & Wd & Wo & dbv & Df & _ & (_ & _ & Hd3 & Hd4) & Hstep
        & (Hh & Hlt & _ & Hc & Hds) & Hv & _ & _).
  rewrite dict_get_remove in Hstep by done.
  rewrite (is_not_set_false _ Hf), andb_false_r in Hstep.
  destruct Hstep as [-> ->].
  split; [|split; congruence].
  unfold __dict__. rewrite Hh, list_lookup_insert_eq by done.
  by rewrite Hv, Hdb.
Qed.

(** ** Profiles and the default *)

(** X22. [get_profile] finds what [register_profile] filed under the
    name, the later registration when there are two, and a registration
    under another name changes nothing to it; while the cell holds a
    default, registering a profile, even the loaded one, does not change
    the current default. *)
Theorem register_then_get_profile p q S S' w :
  fst ((register_profile p S ;; get_profile p) w) = Return S
  /\ fst ((register_profile p S ;; register_profile p S' ;; get_profile p) w)
     = Return S'
  /\ (p <> q ->
      fst ((register_profile p S ;; get_profile q) w) = fst (get_profile q w))
  /\ (forall d, default_variable w = Some d ->
        fst (settings_default (snd (register_profile p S w)))
        = Return (Some d)).
Proof.
  unfold bind, register_profile, get_profile. simpl.
  rewrite !lookup_insert_eq. split; [done|]. split; [done|]. split.
  - intros Hne. rewrite lookup_insert_ne by done.
    by destruct (_profiles w !! q).
  - intros d Hd. by rewrite (settings_default_Some _ d).
Qed.

(** X23. With the cell empty, the getter of [settings.default] returns
    [None] when no profile was ever loaded; otherwise it loads the current
    profile again, fills the cell with that profile's snapshot and returns
    it, or raises when the profile is not registered. *)
Theorem default_resolves_lazily w :
  default_variable w = None ->
  match _current_profile w with
  | None => settings_default w = (Return None, w)
  | Some p =>
      match _profiles w !! p with
      | Some P =>
          settings_default w = (Return (Some P), set_default_variable (Some P) w)
          /\ settings_default (set_default_variable (Some P) w)
             = (Return (Some P), set_default_variable (Some P) w)
      | None =>
          settings_default w
          = (Raise (InvalidArgument
                      ("Profile '" ++ p ++ "' has not been registered")), w)
      end
  end.
Proof.
  intros Hd.
  assert (Hrun : settings_default w =
            match _current_profile w with
            | Some p =>
                match _profiles w !! p with
                | Some P => (Return (Some P), set_default_variable (Some P) w)
                | None =>
                    (Raise (InvalidArgument
                              ("Profile '" ++ p ++ "' has not been registered")),
                     w)
                end
            | None => (Return None, w)
            end).
  { unfold settings_default.
    unfold bind at 1, DynamicVariable_value at 1. rewrite Hd.
    destruct (_current_profile w) as [p|] eqn:Ep.
    - unfold bind at 1. rewrite Ep.
      unfold load_profile, bind, get_profile, _assign_default_internal,
        DynamicVariable_set_value, DynamicVariable_value. simpl.
      assert (Hw : set__current_profile (Some p) w = w).
      { destruct w. simpl in *. by subst. }
      destruct (_profiles w !! p) as [P|]; simpl; by rewrite Hw.
    - unfold bind, DynamicVariable_value. by rewrite Ep, Hd. }
  rewrite Hrun. destruct (_current_profile w) as [p|]; [|done].
  destruct (_profiles w !! p) as [P|]; [|done].
  split; [done|]. by apply settings_default_Some.
Qed.

(** ** Scopes, entered and left by hand *)

(** X24. Leaving a snapshot that was not entered raises [IndexError]; the
    default cell, the snapshots and the profiles stay as they were, only
    the empty scope stack is made if it was not there. *)
Theorem exit_without_enter s i exc w :
  __dict__ s w !! "storage" = Some (threading_local i) ->
  i < length (locals w) ->
  stack i w = [] ->
  __exit__ s exc w
  = (Raise (IndexError "pop from empty list"),
     set_locals (<[i := Some []]> (locals w)) w).
Proof.
  intros Hs Hi Hst. unfold __exit__, bind.
  rewrite (defaults_stack_ready s i) by done.
  unfold list_pop. simpl. rewrite list_lookup_insert_eq by done.
  by rewrite Hst.
Qed.

(** X25. Scopes left in the order they were entered, instead of the
    reverse, do not restore the default: after entering [a] then [b] and
    leaving [a] then [b], the current default is [a]. *)
Theorem exits_must_mirror_entries a b i j w :
  __dict__ a w !! "storage" = Some (threading_local i) ->
  __dict__ b w !! "storage" = Some (threading_local j) ->
  i < length (locals w) -> j < length (locals w) -> i <> j ->
  let r := (__enter__ a ;; __enter__ b ;;
            __exit__ a None ;; __exit__ b None) w in
  fst r = Return false /\ default_variable (snd r) = Some a.
Proof.
  intros Ha Hb Hi Hj Hij r.
  assert (Hrun : exists wf, r = (Return false, wf)
                            /\ default_variable wf = Some a);
    [|by destruct Hrun as (wf & -> & Hwf)].
  subst r.
  unfold bind at 1. rewrite (enter_spec a i w Ha Hi).
  set (c1 := length (context_managers w)).
  set (w1 := set_default_variable _ _).
  assert (Hb1 : __dict__ b w1 !! "storage" = Some (threading_local j)) by done.
  assert (Hj1 : j < length (locals w1)).
  { simpl. by rewrite length_insert. }
  unfold bind at 1. rewrite (enter_spec b j w1 Hb1 Hj1).
  set (c2 := length (context_managers w1)).
  set (w2 := set_default_variable _ _).
  assert (Ha2 : __dict__ a w2 !! "storage" = Some (threading_local i)) by done.
  assert (Hi2 : i < length (locals w2)).
  { simpl. by rewrite !length_insert. }
  assert (Hst2 : stack i w2 = (stack i w ++ [c1])%list).
  { unfold stack at 1. simpl.
    rewrite list_lookup_insert_ne by done.
    by rewrite list_lookup_insert_eq. }
  assert (Hc1 : context_managers w2 !! c1
                = Some (mkCM a (Some (default_variable w)))).
  { simpl. rewrite lookup_app_l.
    - by rewrite list_lookup_middle.
    - rewrite length_app. simpl. unfold c1. lia. }
  unfold bind at 1.
  rewrite (exit_spec a i _ c1 a (default_variable w) None w2 Ha2 Hi2 Hst2 Hc1).
  set (w3 := set_default_variable _ _).
  assert (Hb3 : __dict__ b w3 !! "storage" = Some (threading_local j)) by done.
  assert (Hj3 : j < length (locals w3)).
  { simpl. by rewrite !length_insert. }
  assert (Hst3 : stack j w3 = (stack j w1 ++ [c2])%list).
  { unfold stack at 1. simpl.
    rewrite list_lookup_insert_ne by done.
    rewrite list_lookup_insert_eq; [done|]. by rewrite length_insert. }
  assert (Hc2 : context_managers w3 !! c2 = Some (mkCM b (Some (Some a)))).
  { simpl. by rewrite list_lookup_middle. }
  rewrite (exit_spec b j _ c2 b (Some a) None w3 Hb3 Hj3 Hst3 Hc2).
  by eexists.
Qed.

(** ** Deprecation without a snapshot *)

(** X26. Called without a snapshot, [note_deprecation] behaves as when it
    is given the current default. *)
Theorem note_deprecation_without_snapshot m d w :
  default_variable w = Some d ->
  note_deprecation m None w = note_deprecation m (Some d) w.
Proof.
  intros Hd. unfold note_deprecation.
  unfold bind at 1. rewrite (settings_default_Some _ _ Hd).
  by unfold bind at 3, ret at 1.
Qed.

(** ** Import *)


End Imported.

(** * The statements on concrete states

    The module imported with [HYPOTHESIS_STRICT_MODE] and
    [HYPOTHESIS_VERBOSITY_LEVEL] unset. *)

(** C6 on the code.  The snapshot the import registers as profile
    [default] is built while there is no default, so it stores no option.
    Reading [database_file] on it calls the default function, stores
    nothing, and a second read calls the function again: with
    [HYPOTHESIS_DATABASE_FILE] set in between, the two reads differ. *)
Theorem default_function_called_on_every_read :
  let w0 := example_world None Verbosity_normal in
  let r1 := getattr_ None Verbosity_normal 0 "database_file" w0 in
  let r2 := getattr_ None Verbosity_normal 0 "database_file"
              (set_environ example_environ' (snd r1)) in
  default_variable w0 = Some 0
  /\ fst r1 = Return (Str "/home/user/.hypothesis/examples")
  /\ __dict__ 0 (snd r1) !! "database_file" = None
  /\ heap (snd r1) = heap w0
  /\ fst r2 = Return (Str "/tmp/examples.db")
  /\ trace (snd r2) = [Called "database_file"; Called "database_file"].
Proof.
  intros w0 r1 r2.
  repeat match goal with |- _ /\ _ => split end; vm_compute; reflexivity.
Qed.


Lemma example_world_cache_wf : cache_wf (example_world None Verbosity_normal).
Proof.
  assert (Hd : databases (example_world None Verbosity_normal) = [])
    by (vm_compute; reflexivity).
  split; [vm_compute; reflexivity|]. split; [vm_compute; reflexivity|].
  intros i j p q _ Hi _. rewrite Hd in Hi. discriminate Hi.
Qed.

Lemma example_world2_cache_wf : cache_wf (example_world2 None Verbosity_normal).
Proof.
  assert (Hd : databases (example_world2 None Verbosity_normal) = [])
    by (vm_compute; reflexivity).
  split; [vm_compute; reflexivity|]. split; [vm_compute; reflexivity|].
  intros i j p q _ Hi _. rewrite Hd in Hi. discriminate Hi.
Qed.

(** C1 at work: snapshot [1], built from the default with
    [max_examples=7, phases=None], keeps the default's [timeout] and reads
    [phases] as the validator's answer to [None]. *)
Lemma child_inherits_or_overrides_witness :
  let w := example_world None Verbosity_normal in
  let r := settings None Verbosity_normal (Some 0) example_kwargs w in
  fst r = Return 1
  /\ resolves None Verbosity_normal 0 "timeout" w (Int 60)
  /\ resolves None Verbosity_normal 1 "timeout" (snd r) (Int 60)
  /\ fst (getattr_ None Verbosity_normal 1 "phases" (snd r))
     = _validate_phases None_.
Proof.
  intros w r.
  assert (Hlt : 0 < length (heap w)) by (vm_compute; lia).
  assert (Hnd : NoDup (map fst example_kwargs))
    by (apply (bool_decide_unpack _); vm_compute; reflexivity).
  assert (Hrun : settings None Verbosity_normal (Some 0) example_kwargs w
                 = (Return 1, snd r)) by (vm_compute; reflexivity).
  split; [vm_compute; reflexivity|].
  split; [vm_compute; reflexivity|].
  split.
  - destruct (child_inherits_or_overrides None Verbosity_normal 0
                example_kwargs "timeout" w 1 (snd r) Hlt Hnd eq_refl Hrun)
      as [Hinh _].
    apply Hinh; vm_compute; reflexivity.
  - destruct (child_inherits_or_overrides None Verbosity_normal 0
                example_kwargs "phases" w 1 (snd r) Hlt Hnd eq_refl Hrun)
      as [_ Hov].
    destruct Hov as (s & Hs & Hread); [vm_compute; discriminate|].
    vm_compute in Hs. injection Hs as <-. exact Hread.
Defined.

(** C2 at work on the default snapshot. *)
Lemma setattr_complete_immutable_witness :
  let w := example_world None Verbosity_normal in
  construction_complete 0 w
  /\ __setattr__ None Verbosity_normal 0 "max_examples" (Int 1) w
     = (Raise (AttributeError immutable_msg), w)
  /\ __setattr__ None Verbosity_normal 0 "database" None_ w
     = (Raise (AttributeError immutable_msg), w).
Proof.
  intros w.
  assert (Hc : construction_complete 0 w) by (vm_compute; reflexivity).
  split; [exact Hc|]. split.
  - apply (setattr_complete_immutable None Verbosity_normal 0 "max_examples"
             (Int 1) w Hc). left. reflexivity.
  - apply (setattr_complete_immutable None Verbosity_normal 0 "database"
             None_ w Hc). right. reflexivity.
Defined.

(** C3 at work: the default snapshot is not strict and its verbosity is
    [normal], so a deprecation is issued as a warning. *)
Lemma note_deprecation_cases_witness :
  let w := example_world None Verbosity_normal in
  note_deprecation None Verbosity_normal "old" (Some 0) w
  = (Return tt,
     set_trace (trace w ++ [Warned (HypothesisDeprecationWarning "old")]) w).
Proof.
  intros w.
  destruct (note_deprecation_cases None Verbosity_normal "old" 0 0
              (Bool false) (Bool false) Verbosity_normal w w)
    as (_ & _ & _ & Hwarn).
  - vm_compute. reflexivity.
  - vm_compute. reflexivity.
  - vm_compute. reflexivity.
  - vm_compute. reflexivity.
  - apply Hwarn; [reflexivity|]. vm_compute. reflexivity.
Defined.

(** C4 at work: two nested scopes around a body that raises. *)
Lemma nested_scopes_restore_default_witness :
  let w := example_world2 None Verbosity_normal in
  let body : M unit := raise (InvalidArgument "boom") in
  let r := nested None Verbosity_normal [1; 0] body w in
  default_variable w = Some 0
  /\ default_variable (snd r) = Some 0
  /\ fst r = Raise (InvalidArgument "boom").
Proof.
  intros w body r.
  assert (Hready : Forall (fun x => scope_ready x w) [1; 0]).
  { repeat constructor.
    - exists 1. split; [vm_compute; reflexivity | vm_compute; lia].
    - exists 0. split; [vm_compute; reflexivity | vm_compute; lia]. }
  assert (Hbody : scope_neutral body).
  { intros u. repeat split; reflexivity. }
  destruct (nested_scopes_restore_default None Verbosity_normal 1 [0] body w
              Hready Hbody) as (Hd & (wi & Hres) & _).
  split; [vm_compute; reflexivity|]. split.
  - fold r in Hd. rewrite Hd. vm_compute. reflexivity.
  - exact Hres.
Defined.

(** C5 at work: the second snapshot registered and loaded as [ci]. *)
Lemma register_then_load_witness :
  let w := example_world2 None Verbosity_normal in
  exists w',
    (register_profile "ci" 1 ;; load_profile "ci") w = (Return tt, w')
    /\ settings_default w' = (Return (Some 1), w')
    /\ resolves None Verbosity_normal 1 "database_file" w' (Str "/tmp/a").
Proof.
  intros w.
  destruct (register_then_load None Verbosity_normal "ci" 1 w)
    as (w' & d & Hrun & Hd & _).
  exists w'. split; [exact Hrun|].
  assert (Hw' : w' = snd ((register_profile "ci" 1 ;; load_profile "ci") w))
    by (rewrite Hrun; reflexivity).
  subst w'. split; vm_compute; reflexivity.
Defined.

(** C7 at work, and against the claim as first stated: the default
    snapshot is unresolved, the child built from it holds the cached
    database object. *)
Lemma child_database_is_source_reading_witness :
  let w := example_world None Verbosity_normal in
  let r := settings None Verbosity_normal (Some 0) [] w in
  exists v,
    __dict__ 1 (snd r) !! "_database" = Some v
    /\ v <> not_set
    /\ fst (database None Verbosity_normal 0 (snd r)) = Return v.
Proof.
  intros w r.
  destruct (child_database_is_source_reading None Verbosity_normal 0 [] w 1
              (snd r)) as (v & H1 & H2 & H3 & _).
  - vm_compute. lia.
  - exact example_world_cache_wf.
  - reflexivity.
  - reflexivity.
  - vm_compute. reflexivity.
  - exists v. auto.
Defined.

(** C7, the claim as first stated fails: the inheritance source's
    override is unresolved, the child's is not. *)
Lemma child_database_not_verbatim :
  let w := example_world None Verbosity_normal in
  let r := settings None Verbosity_normal (Some 0) [] w in
  fst r = Return 1
  /\ __dict__ 0 w !! "_database" = Some not_set
  /\ __dict__ 1 (snd r) !! "_database" = Some (ExampleDatabase 0)
  /\ __dict__ 1 (snd r) !! "_database" <> __dict__ 0 w !! "_database".
Proof.
  intros w r.
  assert (H0 : __dict__ 0 w !! "_database" = Some not_set)
    by (vm_compute; reflexivity).
  assert (H1 : __dict__ 1 (snd r) !! "_database" = Some (ExampleDatabase 0))
    by (vm_compute; reflexivity).
  split; [vm_compute; reflexivity|]. split; [exact H0|]. split; [exact H1|].
  rewrite H0, H1. discriminate.
Qed.

(** C8 at work: the default snapshot and snapshot [1] have different
    files. *)
Lemma database_cached_per_path_witness :
  let w := example_world2 None Verbosity_normal in
  exists i j w1 w2,
    database None Verbosity_normal 0 w = (Return (ExampleDatabase i), w1)
    /\ database None Verbosity_normal 1 w1 = (Return (ExampleDatabase j), w2)
    /\ i <> j.
Proof.
  intros w.
  destruct (database_cached_per_path None Verbosity_normal 0 1
              "/home/user/.hypothesis/examples" "/tmp/a" w)
    as (i & j & w1 & w2 & H1 & H2 & _ & Hne & _).
  - exact example_world2_cache_wf.
  - vm_compute. reflexivity.
  - vm_compute. reflexivity.
  - vm_compute. reflexivity.
  - vm_compute. reflexivity.
  - exists i, j, w1, w2. split; [exact H1|]. split; [exact H2|].
    apply Hne. discriminate.
Defined.

(** C9 at work on the default snapshot. *)
Lemma setattr_complete_unregistered_witness :
  let w := example_world None Verbosity_normal in
  __setattr__ None Verbosity_normal 0 "colour" (Int 1) w
  = (Raise (AttributeError "No such setting colour"), w).
Proof.
  intros w.
  destruct (setattr_complete_unregistered None Verbosity_normal 0 "colour"
              (Int 1) w) as [Hmiss _].
  - vm_compute. reflexivity.
  - reflexivity.
  - apply Hmiss; [discriminate | reflexivity].
Defined.

(** C9, the claim as first stated fails: [_construction_complete] is not
    a registered option, yet assigning it on a completed snapshot returns
    and reopens the snapshot. *)
Lemma whitelisted_assignment_succeeds :
  let w := example_world None Verbosity_normal in
  let r := __setattr__ None Verbosity_normal 0 "_construction_complete"
             (Bool false) w in
  construction_complete 0 w
  /\ in_all_settings None Verbosity_normal "_construction_complete" = false
  /\ fst r = Return tt
  /\ ~ construction_complete 0 (snd r)
  /\ r <> (Raise (AttributeError "No such setting _construction_complete"), w).
Proof.
  intros w r.
  assert (Hr : r = (Return tt, snd r)) by (vm_compute; reflexivity).
  assert (Hc : __dict__ 0 (snd r) !! "_construction_complete"
               = Some (Bool false)) by (vm_compute; reflexivity).
  split; [vm_compute; reflexivity|]. split; [vm_compute; reflexivity|].
  split; [vm_compute; reflexivity|]. split.
  - unfold construction_complete. rewrite Hc. discriminate.
  - rewrite Hr. discriminate.
Qed.

(** C10 at work: no profile is called [ci]. *)
Lemma load_profile_unknown_witness :
  let w := example_world None Verbosity_normal in
  let e := InvalidArgument "Profile 'ci' has not been registered" in
  load_profile "ci" w = (Raise e, set__current_profile (Some "ci") w)
  /\ settings_default
       (set_default_variable None (set__current_profile (Some "ci") w))
     = (Raise e,
        set_default_variable None (set__current_profile (Some "ci") w)).
Proof.
  intros w e. split.
  - apply (load_profile_unknown "ci" w). vm_compute. reflexivity.
  - apply (load_profile_unknown "ci" (set_default_variable None w)).
    + vm_compute. reflexivity.
    + reflexivity.
Defined.

(** * The further properties on concrete states *)

(** X1 at work: [quiet <= debug]. *)
Lemma Verbosity_comparisons_agree_witness :
  Verbosity___le__ Verbosity_quiet (VerbosityV Verbosity_debug) = Return true
  /\ Verbosity___gt__ Verbosity_debug (VerbosityV Verbosity_quiet) = Return true.
Proof.
  destruct (Verbosity_comparisons_agree Verbosity_quiet Verbosity_debug)
    as (lt & gt & Hlt & _ & Hle & _ & Hgt & _).
  assert (lt = true) as -> by (vm_compute in Hlt; congruence).
  split; [exact Hle | exact Hgt].
Defined.

(** X2 at work: [by_name('verbose')]. *)
Lemma by_name_round_trip_witness :
  by_name "verbose" = Return Verbosity_verbose.
Proof.
  destruct (by_name_round_trip "verbose") as [_ Hfind].
  apply (Hfind Verbosity_verbose). simpl. auto.
Defined.

(** X3 at work: a list of two phases. *)
Lemma _validate_phases_result_witness :
  _validate_phases (Tuple [PhaseV shrink; PhaseV explicit])
  = Return (Tuple [PhaseV shrink; PhaseV explicit]).
Proof.
  destruct (_validate_phases_result (List_ [PhaseV shrink; PhaseV explicit])
              (Tuple [PhaseV shrink; PhaseV explicit])) as (_ & Hagain & _).
  - reflexivity.
  - exact Hagain.
Defined.

(** X4 at work: a new setting after the module's lock. *)
Lemma define_setting_after_lock_witness :
  let r := lock_further_definitions
             (mkRegistry (all_settings None Verbosity_normal) false) in
  define_setting (mkSetting "widgets" (Const (Int 3)) None None) r
  = (Some (InvalidState
             "settings have been locked and may no longer be defined."), r).
Proof.
  intros r.
  destruct (define_setting_after_lock
              (mkSetting "widgets" (Const (Int 3)) None None) []
              (mkRegistry (all_settings None Verbosity_normal) false))
    as (H & _).
  exact H.
Defined.



(** X7 at work: [max_examples] on the default snapshot. *)
Lemma read_registered_option_witness :
  let w := example_world None Verbosity_normal in
  exists t, getattr_ None Verbosity_normal 0 "max_examples" w
            = (Return (Int 200), set_trace t w).
Proof.
  intros w.
  destruct (read_registered_option None Verbosity_normal 0 "max_examples" w)
    as (s & v & t & Hs & Hrun & Hv); [reflexivity|].
  assert (Hd : __dict__ 0 w !! "max_examples" = None)
    by (vm_compute; reflexivity).
  assert (Hs' : all_settings_get None Verbosity_normal "max_examples"
                = Some (mkSetting "max_examples" (Const (Int 200)) None None))
    by (vm_compute; reflexivity).
  rewrite Hd in Hv. rewrite Hs' in Hs. injection Hs as <-. simpl in Hv.
  subst v. by exists t.
Defined.

(** X8 at work: the default snapshot after a child was built from it. *)
Lemma construction_leaves_other_snapshots_witness :
  let w := example_world None Verbosity_normal in
  let w' := snd (settings None Verbosity_normal (Some 0) example_kwargs w) in
  __dict__ 0 w' !! "storage" = __dict__ 0 w !! "storage"
  /\ __dict__ 0 w' !! "max_examples" = __dict__ 0 w !! "max_examples".
Proof.
  intros w w'.
  destruct (construction_leaves_other_snapshots None Verbosity_normal
              (Some 0) example_kwargs w 0) as [Hkeep _].
  - vm_compute. lia.
  - split; apply Hkeep; discriminate.
Defined.

(** X9 at work: [settings(widgets=3)]. *)
Lemma construction_rejects_unknown_keyword_witness :
  exists e,
    fst (settings None Verbosity_normal (Some 0) [("widgets", Int 3)]
           (example_world None Verbosity_normal)) = Raise e.
Proof.
  destruct (settings None Verbosity_normal (Some 0) [("widgets", Int 3)]
           (example_world None Verbosity_normal)) as [[c|e] w'] eqn:E.
  - exfalso. revert E.
    apply (construction_rejects_unknown_keyword None Verbosity_normal
           (Some 0) [("widgets", Int 3)] "widgets").
    + simpl. auto.
    + discriminate.
    + reflexivity.
  - by exists e.
Defined.

(** X10 at work: [settings(verbosity=1)]. *)
Lemma construction_rejects_disallowed_value_witness :
  exists e,
    fst (settings None Verbosity_normal None [("verbosity", Int 1)]
           (example_world None Verbosity_normal)) = Raise e.
Proof.
  destruct (settings None Verbosity_normal None [("verbosity", Int 1)]
           (example_world None Verbosity_normal)) as [[c|e] w'] eqn:E.
  - exfalso. revert E.
    apply (construction_rejects_disallowed_value None Verbosity_normal
           None [("verbosity", Int 1)] "verbosity"
           (mkSetting "verbosity" (Const (VerbosityV Verbosity_normal))
              (Some Verbosity_all) None) Verbosity_all).
    + reflexivity.
    + reflexivity.
    + reflexivity.
    + discriminate.
    + reflexivity.
  - by exists e.
Defined.

(** X11 at work: [settings(phases=3)]. *)
Lemma construction_rejects_invalid_override_witness :
  exists e,
    fst (settings None Verbosity_normal None [("phases", Int 3)]
           (example_world None Verbosity_normal)) = Raise e.
Proof.
  destruct (settings None Verbosity_normal None [("phases", Int 3)]
           (example_world None Verbosity_normal)) as [[c|e] w'] eqn:E.
  - exfalso. revert E.
    apply (construction_rejects_invalid_override None Verbosity_normal
           None [("phases", Int 3)] "phases"
           (mkSetting "phases" (Const tuple_Phase) None (Some _validate_phases))
           _validate_phases (TypeError "object is not iterable")).
    + right. vm_compute. discriminate.
    + reflexivity.
    + reflexivity.
    + discriminate.
    + reflexivity.
  - by exists e.
Defined.

(** X12 at work: the verbosity stored in a child of the default. *)
Lemma stored_options_are_allowed_witness :
  let w := example_world None Verbosity_normal in
  let w' := snd (settings None Verbosity_normal (Some 0) [] w) in
  in_options (VerbosityV Verbosity_normal) Verbosity_all = true.
Proof.
  intros w w'.
  apply (stored_options_are_allowed None Verbosity_normal (Some 0) [] w 1 w'
           "verbosity"
           (mkSetting "verbosity" (Const (VerbosityV Verbosity_normal))
              (Some Verbosity_all) None)).
  - vm_compute. reflexivity.
  - vm_compute. reflexivity.
  - reflexivity.
  - vm_compute. reflexivity.
Defined.

(** X13 at work: [database_file] of a snapshot built from the default. *)
Lemma derived_snapshot_stores_every_option_witness :
  let w := example_world None Verbosity_normal in
  let w' := snd (settings None Verbosity_normal None example_kwargs w) in
  exists v, __dict__ 1 w' !! "database_file" = Some v
            /\ getattr_ None Verbosity_normal 1 "database_file" w'
               = (Return v, w').
Proof.
  intros w w'.
  apply (derived_snapshot_stores_every_option None Verbosity_normal
           None example_kwargs w 1 w' "database_file").
  - right. vm_compute. discriminate.
  - vm_compute. reflexivity.
  - vm_compute. reflexivity.
Defined.

(** X14 at work: the snapshot built from the default. *)
Lemma constructed_snapshot_is_complete_witness :
  let w := example_world None Verbosity_normal in
  let w' := snd (settings None Verbosity_normal None example_kwargs w) in
  construction_complete 1 w' /\ scope_ready 1 w'.
Proof.
  intros w w'.
  destruct (constructed_snapshot_is_complete None Verbosity_normal
              None example_kwargs w 1 w') as (_ & Hc & Hs & _).
  - vm_compute. reflexivity.
  - split; [exact Hc | exact Hs].
Defined.

(** X15 at work: a child made with [database=None]. *)
Lemma database_explicit_override_witness :
  let w := snd (settings None Verbosity_normal (Some 0) [("database", None_)]
                  (example_world None Verbosity_normal)) in
  database None Verbosity_normal 1 w = (Return None_, w).
Proof.
  intros w.
  destruct (database_explicit_override None Verbosity_normal 1 None_ w)
    as [H _].
  - vm_compute. reflexivity.
  - discriminate.
  - exact H.
Defined.

(** X16 at work: a child made with [database_file=None]. *)
Lemma database_without_file_witness :
  let w := snd (settings None Verbosity_normal (Some 0)
                  [("database_file", None_)]
                  (example_world None Verbosity_normal)) in
  exists w', database None Verbosity_normal 1 w = (Return None_, w')
             /\ databases w' = databases w.
Proof.
  intros w.
  destruct (database_without_file None Verbosity_normal 1 w)
    as (w' & Hrun & _ & _ & Hdb & _).
  - vm_compute. reflexivity.
  - vm_compute. reflexivity.
  - exists w'. split; [exact Hrun | exact Hdb].
Defined.

(** X17 at work: a child made with [database_file=[]]. *)
Lemma database_unhashable_file_witness :
  let w := snd (settings None Verbosity_normal (Some 0)
                  [("database_file", List_ [])]
                  (example_world None Verbosity_normal)) in
  exists t, database None Verbosity_normal 1 w
            = (Raise (TypeError "unhashable type"), set_trace t w).
Proof.
  intros w.
  apply (database_unhashable_file None Verbosity_normal 1 (List_ []) w).
  - vm_compute. reflexivity.
  - vm_compute. reflexivity.
  - reflexivity.
Defined.

(** X18 at work: the first read of [database] on the second snapshot. *)
Lemma database_never_evicts_witness :
  let w := example_world2 None Verbosity_normal in
  let w' := snd (database None Verbosity_normal 1 w) in
  exists ext, _db_cache w' = (_db_cache w ++ ext)%list /\ length ext <= 1.
Proof.
  intros w w'.
  destruct (database_never_evicts None Verbosity_normal 1 w)
    as (ext & ext' & Hc & _ & Hl & _).
  exists ext. split; [exact Hc | exact Hl].
Defined.

(** X19 at work: [database] read twice on the default snapshot. *)
Lemma database_read_is_stable_witness :
  let w := example_world None Verbosity_normal in
  let w1 := snd (database None Verbosity_normal 0 w) in
  exists t, database None Verbosity_normal 0 w1
            = (Return (ExampleDatabase 0), set_trace t w1).
Proof.
  intros w w1.
  apply (database_read_is_stable None Verbosity_normal 0 _ w w1).
  vm_compute. reflexivity.
Defined.

(** X20 at work: [settings(database=None)]. *)
Lemma explicit_database_is_kept_witness :
  let w := example_world None Verbosity_normal in
  let w' := snd (settings None Verbosity_normal (Some 0)
                   [("database", None_)] w) in
  database None Verbosity_normal 1 w' = (Return None_, w')
  /\ databases w' = databases w.
Proof.
  intros w w'.
  destruct (explicit_database_is_kept None Verbosity_normal 0
              [("database", None_)] w 1 w') as (H1 & H2 & _).
  - vm_compute. lia.
  - discriminate.
  - vm_compute. reflexivity.
  - split; [exact H1 | exact H2].
Defined.

(** X21 at work: [settings(database_file='/tmp/a')]. *)
Lemma database_file_override_stays_lazy_witness :
  let w := example_world None Verbosity_normal in
  let w' := example_world2 None Verbosity_normal in
  __dict__ 1 w' !! "_database" = Some not_set
  /\ databases w' = databases w.
Proof.
  intros w w'.
  destruct (database_file_override_stays_lazy None Verbosity_normal 0
              [("database_file", Str "/tmp/a")] w 1 w') as (H1 & H2 & _).
  - vm_compute. lia.
  - reflexivity.
  - discriminate.
  - vm_compute. reflexivity.
  - split; [exact H1 | exact H2].
Defined.

(** X22 at work: a profile [ci] filed beside [default]. *)
Lemma register_then_get_profile_witness :
  let w := example_world2 None Verbosity_normal in
  fst ((register_profile "ci" 1 ;; get_profile "ci") w) = Return 1
  /\ fst ((register_profile "ci" 1 ;; get_profile "default") w)
     = fst (get_profile "default" w).
Proof.
  intros w.
  destruct (register_then_get_profile "ci" "default" 1 1 w)
    as (H1 & _ & H3 & _).
  split; [exact H1 | apply H3; discriminate].
Defined.

(** X23 at work: the imported module with the cell emptied. *)
Lemma default_resolves_lazily_witness :
  let w := set_default_variable None (example_world None Verbosity_normal) in
  settings_default w = (Return (Some 0), set_default_variable (Some 0) w).
Proof.
  intros w.
  pose proof (default_resolves_lazily w) as H.
  assert (Hp : _current_profile w = Some "default")
    by (vm_compute; reflexivity).
  assert (Hq : _profiles w !! "default" = Some 0)
    by (vm_compute; reflexivity).
  rewrite Hp, Hq in H. destruct H as [H _]; [reflexivity|]. exact H.
Defined.

(** X24 at work: leaving the default snapshot, never entered. *)
Lemma exit_without_enter_witness :
  let w := example_world None Verbosity_normal in
  __exit__ None Verbosity_normal 0 None w
  = (Raise (IndexError "pop from empty list"),
     set_locals (<[0 := Some []]> (locals w)) w).
Proof.
  intros w.
  apply (exit_without_enter None Verbosity_normal 0 0 None w).
  - vm_compute. reflexivity.
  - vm_compute. lia.
  - vm_compute. reflexivity.
Defined.

(** X25 at work: the two snapshots, left in the order of entry. *)
Lemma exits_must_mirror_entries_witness :
  let w := example_world2 None Verbosity_normal in
  let r := (__enter__ None Verbosity_normal 0 ;;
            __enter__ None Verbosity_normal 1 ;;
            __exit__ None Verbosity_normal 0 None ;;
            __exit__ None Verbosity_normal 1 None) w in
  fst r = Return false /\ default_variable (snd r) = Some 0.
Proof.
  intros w.
  apply (exits_must_mirror_entries None Verbosity_normal 0 1 0 1 w).
  - vm_compute. reflexivity.
  - vm_compute. reflexivity.
  - vm_compute. lia.
  - vm_compute. lia.
  - discriminate.
Defined.

(** X26 at work: a deprecation noted on the imported module. *)
Lemma note_deprecation_without_snapshot_witness :
  let w := example_world None Verbosity_normal in
  note_deprecation None Verbosity_normal "old" None w
  = note_deprecation None Verbosity_normal "old" (Some 0) w.
Proof.
  intros w.
  apply (note_deprecation_without_snapshot None Verbosity_normal "old" 0 w).
  vm_compute. reflexivity.
Defined.

